(** * jsondecoder: the converter and the structure printer of [structure.py]

    A shallow embedding of [src/jsondecoder/structure.py].  Python values are
    an inductive type, [str] is a list of code points, the static method
    [_convert] lives in an error monad, and the methods of [JSONDecoder]
    that read or write [self] and print live in a state-and-error monad over
    the decoder object and the standard output. *)

From Stdlib Require Import ZArith NArith List Bool String Ascii Lia.
From Stdlib Require Import SpecFloat DecimalString.
Import ListNotations.

Open Scope Z_scope.

(** ** Case mapping of the runtime *)

(** The tables behind [str.capitalize] and [str.lower]: the full case
    mappings of Unicode 14.0, the version CPython 3.11 carries. *)
Module Unicode.

(** Title case, one code point to one: every [step]-th code point from
    [first] to [last] goes to itself plus [delta]; rows are
    [(first, last, step, delta)]. *)
Definition title_runs : list (N * N * N * Z) :=
  [(97, 122, 1, (-32)%Z); (181, 181, 1, 743%Z); (224, 246, 1, (-32)%Z);
   (248, 254, 1, (-32)%Z); (255, 255, 1, 121%Z); (257, 303, 2, (-1)%Z);
   (305, 305, 1, (-232)%Z); (307, 311, 2, (-1)%Z); (314, 328, 2, (-1)%Z);
   (331, 375, 2, (-1)%Z); (378, 382, 2, (-1)%Z); (383, 383, 1, (-300)%Z);
   (384, 384, 1, 195%Z); (387, 389, 2, (-1)%Z); (392, 392, 1, (-1)%Z);
   (396, 396, 1, (-1)%Z); (402, 402, 1, (-1)%Z); (405, 405, 1, 97%Z);
   (409, 409, 1, (-1)%Z); (410, 410, 1, 163%Z); (414, 414, 1, 130%Z);
   (417, 421, 2, (-1)%Z); (424, 424, 1, (-1)%Z); (429, 429, 1, (-1)%Z);
   (432, 432, 1, (-1)%Z); (436, 438, 2, (-1)%Z); (441, 441, 1, (-1)%Z);
   (445, 445, 1, (-1)%Z); (447, 447, 1, 56%Z); (452, 452, 1, 1%Z); (454, 454, 1, (-1)%Z);
   (455, 455, 1, 1%Z); (457, 457, 1, (-1)%Z); (458, 458, 1, 1%Z); (460, 476, 2, (-1)%Z);
   (477, 477, 1, (-79)%Z); (479, 495, 2, (-1)%Z); (497, 497, 1, 1%Z);
   (499, 501, 2, (-1)%Z); (505, 543, 2, (-1)%Z); (547, 563, 2, (-1)%Z);
   (572, 572, 1, (-1)%Z); (575, 576, 1, 10815%Z); (578, 578, 1, (-1)%Z);
   (583, 591, 2, (-1)%Z); (592, 592, 1, 10783%Z); (593, 593, 1, 10780%Z);
   (594, 594, 1, 10782%Z); (595, 595, 1, (-210)%Z); (596, 596, 1, (-206)%Z);
   (598, 599, 1, (-205)%Z); (601, 601, 1, (-202)%Z); (603, 603, 1, (-203)%Z);
   (604, 604, 1, 42319%Z); (608, 608, 1, (-205)%Z); (609, 609, 1, 42315%Z);
   (611, 611, 1, (-207)%Z); (613, 613, 1, 42280%Z); (614, 614, 1, 42308%Z);
   (616, 616, 1, (-209)%Z); (617, 617, 1, (-211)%Z); (618, 618, 1, 42308%Z);
   (619, 619, 1, 10743%Z); (620, 620, 1, 42305%Z); (623, 623, 1, (-211)%Z);
   (625, 625, 1, 10749%Z); (626, 626, 1, (-213)%Z); (629, 629, 1, (-214)%Z);
   (637, 637, 1, 10727%Z); (640, 640, 1, (-218)%Z); (642, 642, 1, 42307%Z);
   (643, 643, 1, (-218)%Z); (647, 647, 1, 42282%Z); (648, 648, 1, (-218)%Z);
   (649, 649, 1, (-69)%Z); (650, 651, 1, (-217)%Z); (652, 652, 1, (-71)%Z);
   (658, 658, 1, (-219)%Z); (669, 669, 1, 42261%Z); (670, 670, 1, 42258%Z);
   (837, 837, 1, 84%Z); (881, 883, 2, (-1)%Z); (887, 887, 1, (-1)%Z); (891, 893, 1, 130%Z);
   (940, 940, 1, (-38)%Z); (941, 943, 1, (-37)%Z); (945, 961, 1, (-32)%Z);
   (962, 962, 1, (-31)%Z); (963, 971, 1, (-32)%Z); (972, 972, 1, (-64)%Z);
   (973, 974, 1, (-63)%Z); (976, 976, 1, (-62)%Z); (977, 977, 1, (-57)%Z);
   (981, 981, 1, (-47)%Z); (982, 982, 1, (-54)%Z); (983, 983, 1, (-8)%Z);
   (985, 1007, 2, (-1)%Z); (1008, 1008, 1, (-86)%Z); (1009, 1009, 1, (-80)%Z);
   (1010, 1010, 1, 7%Z); (1011, 1011, 1, (-116)%Z); (1013, 1013, 1, (-96)%Z);
   (1016, 1016, 1, (-1)%Z); (1019, 1019, 1, (-1)%Z); (1072, 1103, 1, (-32)%Z);
   (1104, 1119, 1, (-80)%Z); (1121, 1153, 2, (-1)%Z); (1163, 1215, 2, (-1)%Z);
   (1218, 1230, 2, (-1)%Z); (1231, 1231, 1, (-15)%Z); (1233, 1327, 2, (-1)%Z);
   (1377, 1414, 1, (-48)%Z); (5112, 5117, 1, (-8)%Z); (7296, 7296, 1, (-6254)%Z);
   (7297, 7297, 1, (-6253)%Z); (7298, 7298, 1, (-6244)%Z); (7299, 7300, 1, (-6242)%Z);
   (7301, 7301, 1, (-6243)%Z); (7302, 7302, 1, (-6236)%Z); (7303, 7303, 1, (-6181)%Z);
   (7304, 7304, 1, 35266%Z); (7545, 7545, 1, 35332%Z); (7549, 7549, 1, 3814%Z);
   (7566, 7566, 1, 35384%Z); (7681, 7829, 2, (-1)%Z); (7835, 7835, 1, (-59)%Z);
   (7841, 7935, 2, (-1)%Z); (7936, 7943, 1, 8%Z); (7952, 7957, 1, 8%Z);
   (7968, 7975, 1, 8%Z); (7984, 7991, 1, 8%Z); (8000, 8005, 1, 8%Z); (8017, 8023, 2, 8%Z);
   (8032, 8039, 1, 8%Z); (8048, 8049, 1, 74%Z); (8050, 8053, 1, 86%Z);
   (8054, 8055, 1, 100%Z); (8056, 8057, 1, 128%Z); (8058, 8059, 1, 112%Z);
   (8060, 8061, 1, 126%Z); (8064, 8071, 1, 8%Z); (8080, 8087, 1, 8%Z);
   (8096, 8103, 1, 8%Z); (8112, 8113, 1, 8%Z); (8115, 8115, 1, 9%Z);
   (8126, 8126, 1, (-7205)%Z); (8131, 8131, 1, 9%Z); (8144, 8145, 1, 8%Z);
   (8160, 8161, 1, 8%Z); (8165, 8165, 1, 7%Z); (8179, 8179, 1, 9%Z);
   (8526, 8526, 1, (-28)%Z); (8560, 8575, 1, (-16)%Z); (8580, 8580, 1, (-1)%Z);
   (9424, 9449, 1, (-26)%Z); (11312, 11359, 1, (-48)%Z); (11361, 11361, 1, (-1)%Z);
   (11365, 11365, 1, (-10795)%Z); (11366, 11366, 1, (-10792)%Z); (11368, 11372, 2, (-1)%Z);
   (11379, 11379, 1, (-1)%Z); (11382, 11382, 1, (-1)%Z); (11393, 11491, 2, (-1)%Z);
   (11500, 11502, 2, (-1)%Z); (11507, 11507, 1, (-1)%Z); (11520, 11557, 1, (-7264)%Z);
   (11559, 11559, 1, (-7264)%Z); (11565, 11565, 1, (-7264)%Z); (42561, 42605, 2, (-1)%Z);
   (42625, 42651, 2, (-1)%Z); (42787, 42799, 2, (-1)%Z); (42803, 42863, 2, (-1)%Z);
   (42874, 42876, 2, (-1)%Z); (42879, 42887, 2, (-1)%Z); (42892, 42892, 1, (-1)%Z);
   (42897, 42899, 2, (-1)%Z); (42900, 42900, 1, 48%Z); (42903, 42921, 2, (-1)%Z);
   (42933, 42947, 2, (-1)%Z); (42952, 42954, 2, (-1)%Z); (42961, 42961, 1, (-1)%Z);
   (42967, 42969, 2, (-1)%Z); (42998, 42998, 1, (-1)%Z); (43859, 43859, 1, (-928)%Z);
   (43888, 43967, 1, (-38864)%Z); (65345, 65370, 1, (-32)%Z); (66600, 66639, 1, (-40)%Z);
   (66776, 66811, 1, (-40)%Z); (66967, 67003, 2, (-39)%Z); (66968, 66976, 2, (-39)%Z);
   (66980, 66992, 2, (-39)%Z); (66996, 67000, 2, (-39)%Z); (67004, 67004, 1, (-39)%Z);
   (68800, 68850, 1, (-64)%Z); (71872, 71903, 1, (-32)%Z); (93792, 93823, 1, (-32)%Z);
   (125218, 125251, 1, (-34)%Z)]%N.

(** Title case, one code point to several. *)
Definition title_special : list (N * list N) :=
  [(223, [83; 115]); (329, [700; 78]); (496, [74; 780]); (912, [921; 776; 769]);
   (944, [933; 776; 769]); (1415, [1333; 1410]); (7830, [72; 817]); (7831, [84; 776]);
   (7832, [87; 778]); (7833, [89; 778]); (7834, [65; 702]); (8016, [933; 787]);
   (8018, [933; 787; 768]); (8020, [933; 787; 769]); (8022, [933; 787; 834]);
   (8114, [8122; 837]); (8116, [902; 837]); (8118, [913; 834]); (8119, [913; 834; 837]);
   (8130, [8138; 837]); (8132, [905; 837]); (8134, [919; 834]); (8135, [919; 834; 837]);
   (8146, [921; 776; 768]); (8147, [921; 776; 769]); (8150, [921; 834]);
   (8151, [921; 776; 834]); (8162, [933; 776; 768]); (8163, [933; 776; 769]);
   (8164, [929; 787]); (8166, [933; 834]); (8167, [933; 776; 834]); (8178, [8186; 837]);
   (8180, [911; 837]); (8182, [937; 834]); (8183, [937; 834; 837]); (64256, [70; 102]);
   (64257, [70; 105]); (64258, [70; 108]); (64259, [70; 102; 105]);
   (64260, [70; 102; 108]); (64261, [83; 116]); (64262, [83; 116]); (64275, [1348; 1398]);
   (64276, [1348; 1381]); (64277, [1348; 1387]); (64278, [1358; 1398]);
   (64279, [1348; 1389])]%N.

(** Lower case, one code point to one, in the same layout. *)
Definition lower_runs : list (N * N * N * Z) :=
  [(65, 90, 1, 32%Z); (192, 214, 1, 32%Z); (216, 222, 1, 32%Z); (256, 302, 2, 1%Z);
   (306, 310, 2, 1%Z); (313, 327, 2, 1%Z); (330, 374, 2, 1%Z); (376, 376, 1, (-121)%Z);
   (377, 381, 2, 1%Z); (385, 385, 1, 210%Z); (386, 388, 2, 1%Z); (390, 390, 1, 206%Z);
   (391, 391, 1, 1%Z); (393, 394, 1, 205%Z); (395, 395, 1, 1%Z); (398, 398, 1, 79%Z);
   (399, 399, 1, 202%Z); (400, 400, 1, 203%Z); (401, 401, 1, 1%Z); (403, 403, 1, 205%Z);
   (404, 404, 1, 207%Z); (406, 406, 1, 211%Z); (407, 407, 1, 209%Z); (408, 408, 1, 1%Z);
   (412, 412, 1, 211%Z); (413, 413, 1, 213%Z); (415, 415, 1, 214%Z); (416, 420, 2, 1%Z);
   (422, 422, 1, 218%Z); (423, 423, 1, 1%Z); (425, 425, 1, 218%Z); (428, 428, 1, 1%Z);
   (430, 430, 1, 218%Z); (431, 431, 1, 1%Z); (433, 434, 1, 217%Z); (435, 437, 2, 1%Z);
   (439, 439, 1, 219%Z); (440, 440, 1, 1%Z); (444, 444, 1, 1%Z); (452, 452, 1, 2%Z);
   (453, 453, 1, 1%Z); (455, 455, 1, 2%Z); (456, 456, 1, 1%Z); (458, 458, 1, 2%Z);
   (459, 475, 2, 1%Z); (478, 494, 2, 1%Z); (497, 497, 1, 2%Z); (498, 500, 2, 1%Z);
   (502, 502, 1, (-97)%Z); (503, 503, 1, (-56)%Z); (504, 542, 2, 1%Z);
   (544, 544, 1, (-130)%Z); (546, 562, 2, 1%Z); (570, 570, 1, 10795%Z); (571, 571, 1, 1%Z);
   (573, 573, 1, (-163)%Z); (574, 574, 1, 10792%Z); (577, 577, 1, 1%Z);
   (579, 579, 1, (-195)%Z); (580, 580, 1, 69%Z); (581, 581, 1, 71%Z); (582, 590, 2, 1%Z);
   (880, 882, 2, 1%Z); (886, 886, 1, 1%Z); (895, 895, 1, 116%Z); (902, 902, 1, 38%Z);
   (904, 906, 1, 37%Z); (908, 908, 1, 64%Z); (910, 911, 1, 63%Z); (913, 929, 1, 32%Z);
   (931, 939, 1, 32%Z); (975, 975, 1, 8%Z); (984, 1006, 2, 1%Z); (1012, 1012, 1, (-60)%Z);
   (1015, 1015, 1, 1%Z); (1017, 1017, 1, (-7)%Z); (1018, 1018, 1, 1%Z);
   (1021, 1023, 1, (-130)%Z); (1024, 1039, 1, 80%Z); (1040, 1071, 1, 32%Z);
   (1120, 1152, 2, 1%Z); (1162, 1214, 2, 1%Z); (1216, 1216, 1, 15%Z); (1217, 1229, 2, 1%Z);
   (1232, 1326, 2, 1%Z); (1329, 1366, 1, 48%Z); (4256, 4293, 1, 7264%Z);
   (4295, 4295, 1, 7264%Z); (4301, 4301, 1, 7264%Z); (5024, 5103, 1, 38864%Z);
   (5104, 5109, 1, 8%Z); (7312, 7354, 1, (-3008)%Z); (7357, 7359, 1, (-3008)%Z);
   (7680, 7828, 2, 1%Z); (7838, 7838, 1, (-7615)%Z); (7840, 7934, 2, 1%Z);
   (7944, 7951, 1, (-8)%Z); (7960, 7965, 1, (-8)%Z); (7976, 7983, 1, (-8)%Z);
   (7992, 7999, 1, (-8)%Z); (8008, 8013, 1, (-8)%Z); (8025, 8031, 2, (-8)%Z);
   (8040, 8047, 1, (-8)%Z); (8072, 8079, 1, (-8)%Z); (8088, 8095, 1, (-8)%Z);
   (8104, 8111, 1, (-8)%Z); (8120, 8121, 1, (-8)%Z); (8122, 8123, 1, (-74)%Z);
   (8124, 8124, 1, (-9)%Z); (8136, 8139, 1, (-86)%Z); (8140, 8140, 1, (-9)%Z);
   (8152, 8153, 1, (-8)%Z); (8154, 8155, 1, (-100)%Z); (8168, 8169, 1, (-8)%Z);
   (8170, 8171, 1, (-112)%Z); (8172, 8172, 1, (-7)%Z); (8184, 8185, 1, (-128)%Z);
   (8186, 8187, 1, (-126)%Z); (8188, 8188, 1, (-9)%Z); (8486, 8486, 1, (-7517)%Z);
   (8490, 8490, 1, (-8383)%Z); (8491, 8491, 1, (-8262)%Z); (8498, 8498, 1, 28%Z);
   (8544, 8559, 1, 16%Z); (8579, 8579, 1, 1%Z); (9398, 9423, 1, 26%Z);
   (11264, 11311, 1, 48%Z); (11360, 11360, 1, 1%Z); (11362, 11362, 1, (-10743)%Z);
   (11363, 11363, 1, (-3814)%Z); (11364, 11364, 1, (-10727)%Z); (11367, 11371, 2, 1%Z);
   (11373, 11373, 1, (-10780)%Z); (11374, 11374, 1, (-10749)%Z);
   (11375, 11375, 1, (-10783)%Z); (11376, 11376, 1, (-10782)%Z); (11378, 11378, 1, 1%Z);
   (11381, 11381, 1, 1%Z); (11390, 11391, 1, (-10815)%Z); (11392, 11490, 2, 1%Z);
   (11499, 11501, 2, 1%Z); (11506, 11506, 1, 1%Z); (42560, 42604, 2, 1%Z);
   (42624, 42650, 2, 1%Z); (42786, 42798, 2, 1%Z); (42802, 42862, 2, 1%Z);
   (42873, 42875, 2, 1%Z); (42877, 42877, 1, (-35332)%Z); (42878, 42886, 2, 1%Z);
   (42891, 42891, 1, 1%Z); (42893, 42893, 1, (-42280)%Z); (42896, 42898, 2, 1%Z);
   (42902, 42920, 2, 1%Z); (42922, 42922, 1, (-42308)%Z); (42923, 42923, 1, (-42319)%Z);
   (42924, 42924, 1, (-42315)%Z); (42925, 42925, 1, (-42305)%Z);
   (42926, 42926, 1, (-42308)%Z); (42928, 42928, 1, (-42258)%Z);
   (42929, 42929, 1, (-42282)%Z); (42930, 42930, 1, (-42261)%Z); (42931, 42931, 1, 928%Z);
   (42932, 42946, 2, 1%Z); (42948, 42948, 1, (-48)%Z); (42949, 42949, 1, (-42307)%Z);
   (42950, 42950, 1, (-35384)%Z); (42951, 42953, 2, 1%Z); (42960, 42960, 1, 1%Z);
   (42966, 42968, 2, 1%Z); (42997, 42997, 1, 1%Z); (65313, 65338, 1, 32%Z);
   (66560, 66599, 1, 40%Z); (66736, 66771, 1, 40%Z); (66928, 66964, 2, 39%Z);
   (66929, 66937, 2, 39%Z); (66941, 66953, 2, 39%Z); (66957, 66961, 2, 39%Z);
   (66965, 66965, 1, 39%Z); (68736, 68786, 1, 64%Z); (71840, 71871, 1, 32%Z);
   (93760, 93791, 1, 32%Z); (125184, 125217, 1, 34%Z)]%N.

(** Lower case, one code point to several. *)
Definition lower_special : list (N * list N) :=
  [(304, [105; 775])]%N.

(** The code points the final-sigma rule skips (case-ignorable), as
    inclusive ranges. *)
Definition case_ignorable_ranges : list (N * N) :=
  [(39, 39); (46, 46); (58, 58); (94, 94); (96, 96); (168, 168); (173, 173); (175, 175);
   (180, 180); (183, 184); (688, 879); (884, 885); (890, 890); (900, 901); (903, 903);
   (1155, 1161); (1369, 1369); (1375, 1375); (1425, 1469); (1471, 1471); (1473, 1474);
   (1476, 1477); (1479, 1479); (1524, 1524); (1536, 1541); (1552, 1562); (1564, 1564);
   (1600, 1600); (1611, 1631); (1648, 1648); (1750, 1757); (1759, 1768); (1770, 1773);
   (1807, 1807); (1809, 1809); (1840, 1866); (1958, 1968); (2027, 2037); (2042, 2042);
   (2045, 2045); (2070, 2093); (2137, 2139); (2184, 2184); (2192, 2193); (2200, 2207);
   (2249, 2306); (2362, 2362); (2364, 2364); (2369, 2376); (2381, 2381); (2385, 2391);
   (2402, 2403); (2417, 2417); (2433, 2433); (2492, 2492); (2497, 2500); (2509, 2509);
   (2530, 2531); (2558, 2558); (2561, 2562); (2620, 2620); (2625, 2626); (2631, 2632);
   (2635, 2637); (2641, 2641); (2672, 2673); (2677, 2677); (2689, 2690); (2748, 2748);
   (2753, 2757); (2759, 2760); (2765, 2765); (2786, 2787); (2810, 2815); (2817, 2817);
   (2876, 2876); (2879, 2879); (2881, 2884); (2893, 2893); (2901, 2902); (2914, 2915);
   (2946, 2946); (3008, 3008); (3021, 3021); (3072, 3072); (3076, 3076); (3132, 3132);
   (3134, 3136); (3142, 3144); (3146, 3149); (3157, 3158); (3170, 3171); (3201, 3201);
   (3260, 3260); (3263, 3263); (3270, 3270); (3276, 3277); (3298, 3299); (3328, 3329);
   (3387, 3388); (3393, 3396); (3405, 3405); (3426, 3427); (3457, 3457); (3530, 3530);
   (3538, 3540); (3542, 3542); (3633, 3633); (3636, 3642); (3654, 3662); (3761, 3761);
   (3764, 3772); (3782, 3782); (3784, 3789); (3864, 3865); (3893, 3893); (3895, 3895);
   (3897, 3897); (3953, 3966); (3968, 3972); (3974, 3975); (3981, 3991); (3993, 4028);
   (4038, 4038); (4141, 4144); (4146, 4151); (4153, 4154); (4157, 4158); (4184, 4185);
   (4190, 4192); (4209, 4212); (4226, 4226); (4229, 4230); (4237, 4237); (4253, 4253);
   (4348, 4348); (4957, 4959); (5906, 5908); (5938, 5939); (5970, 5971); (6002, 6003);
   (6068, 6069); (6071, 6077); (6086, 6086); (6089, 6099); (6103, 6103); (6109, 6109);
   (6155, 6159); (6211, 6211); (6277, 6278); (6313, 6313); (6432, 6434); (6439, 6440);
   (6450, 6450); (6457, 6459); (6679, 6680); (6683, 6683); (6742, 6742); (6744, 6750);
   (6752, 6752); (6754, 6754); (6757, 6764); (6771, 6780); (6783, 6783); (6823, 6823);
   (6832, 6862); (6912, 6915); (6964, 6964); (6966, 6970); (6972, 6972); (6978, 6978);
   (7019, 7027); (7040, 7041); (7074, 7077); (7080, 7081); (7083, 7085); (7142, 7142);
   (7144, 7145); (7149, 7149); (7151, 7153); (7212, 7219); (7222, 7223); (7288, 7293);
   (7376, 7378); (7380, 7392); (7394, 7400); (7405, 7405); (7412, 7412); (7416, 7417);
   (7468, 7530); (7544, 7544); (7579, 7679); (8125, 8125); (8127, 8129); (8141, 8143);
   (8157, 8159); (8173, 8175); (8189, 8190); (8203, 8207); (8216, 8217); (8228, 8228);
   (8231, 8231); (8234, 8238); (8288, 8292); (8294, 8303); (8305, 8305); (8319, 8319);
   (8336, 8348); (8400, 8432); (11388, 11389); (11503, 11505); (11631, 11631);
   (11647, 11647); (11744, 11775); (11823, 11823); (12293, 12293); (12330, 12333);
   (12337, 12341); (12347, 12347); (12441, 12446); (12540, 12542); (40981, 40981);
   (42232, 42237); (42508, 42508); (42607, 42610); (42612, 42621); (42623, 42623);
   (42652, 42655); (42736, 42737); (42752, 42785); (42864, 42864); (42888, 42890);
   (42994, 42996); (43000, 43001); (43010, 43010); (43014, 43014); (43019, 43019);
   (43045, 43046); (43052, 43052); (43204, 43205); (43232, 43249); (43263, 43263);
   (43302, 43309); (43335, 43345); (43392, 43394); (43443, 43443); (43446, 43449);
   (43452, 43453); (43471, 43471); (43493, 43494); (43561, 43566); (43569, 43570);
   (43573, 43574); (43587, 43587); (43596, 43596); (43632, 43632); (43644, 43644);
   (43696, 43696); (43698, 43700); (43703, 43704); (43710, 43711); (43713, 43713);
   (43741, 43741); (43756, 43757); (43763, 43764); (43766, 43766); (43867, 43871);
   (43881, 43883); (44005, 44005); (44008, 44008); (44013, 44013); (64286, 64286);
   (64434, 64450); (65024, 65039); (65043, 65043); (65056, 65071); (65106, 65106);
   (65109, 65109); (65279, 65279); (65287, 65287); (65294, 65294); (65306, 65306);
   (65342, 65342); (65344, 65344); (65392, 65392); (65438, 65439); (65507, 65507);
   (65529, 65531); (66045, 66045); (66272, 66272); (66422, 66426); (67456, 67461);
   (67463, 67504); (67506, 67514); (68097, 68099); (68101, 68102); (68108, 68111);
   (68152, 68154); (68159, 68159); (68325, 68326); (68900, 68903); (69291, 69292);
   (69446, 69456); (69506, 69509); (69633, 69633); (69688, 69702); (69744, 69744);
   (69747, 69748); (69759, 69761); (69811, 69814); (69817, 69818); (69821, 69821);
   (69826, 69826); (69837, 69837); (69888, 69890); (69927, 69931); (69933, 69940);
   (70003, 70003); (70016, 70017); (70070, 70078); (70089, 70092); (70095, 70095);
   (70191, 70193); (70196, 70196); (70198, 70199); (70206, 70206); (70367, 70367);
   (70371, 70378); (70400, 70401); (70459, 70460); (70464, 70464); (70502, 70508);
   (70512, 70516); (70712, 70719); (70722, 70724); (70726, 70726); (70750, 70750);
   (70835, 70840); (70842, 70842); (70847, 70848); (70850, 70851); (71090, 71093);
   (71100, 71101); (71103, 71104); (71132, 71133); (71219, 71226); (71229, 71229);
   (71231, 71232); (71339, 71339); (71341, 71341); (71344, 71349); (71351, 71351);
   (71453, 71455); (71458, 71461); (71463, 71467); (71727, 71735); (71737, 71738);
   (71995, 71996); (71998, 71998); (72003, 72003); (72148, 72151); (72154, 72155);
   (72160, 72160); (72193, 72202); (72243, 72248); (72251, 72254); (72263, 72263);
   (72273, 72278); (72281, 72283); (72330, 72342); (72344, 72345); (72752, 72758);
   (72760, 72765); (72767, 72767); (72850, 72871); (72874, 72880); (72882, 72883);
   (72885, 72886); (73009, 73014); (73018, 73018); (73020, 73021); (73023, 73029);
   (73031, 73031); (73104, 73105); (73109, 73109); (73111, 73111); (73459, 73460);
   (78896, 78904); (92912, 92916); (92976, 92982); (92992, 92995); (94031, 94031);
   (94095, 94111); (94176, 94177); (94179, 94180); (110576, 110579); (110581, 110587);
   (110589, 110590); (113821, 113822); (113824, 113827); (118528, 118573);
   (118576, 118598); (119143, 119145); (119155, 119170); (119173, 119179);
   (119210, 119213); (119362, 119364); (121344, 121398); (121403, 121452);
   (121461, 121461); (121476, 121476); (121499, 121503); (121505, 121519);
   (122880, 122886); (122888, 122904); (122907, 122913); (122915, 122916);
   (122918, 122922); (123184, 123197); (123566, 123566); (123628, 123631);
   (125136, 125142); (125252, 125259); (127995, 127999); (917505, 917505);
   (917536, 917631); (917760, 917999)]%N.

(** The cased code points that the final-sigma rule does not skip, as
    inclusive ranges. *)
Definition cased_ranges : list (N * N) :=
  [(65, 90); (97, 122); (170, 170); (181, 181); (186, 186); (192, 214); (216, 246);
   (248, 442); (444, 447); (452, 659); (661, 687); (880, 883); (886, 887); (891, 893);
   (895, 895); (902, 902); (904, 906); (908, 908); (910, 929); (931, 1013); (1015, 1153);
   (1162, 1327); (1329, 1366); (1376, 1416); (4256, 4293); (4295, 4295); (4301, 4301);
   (4304, 4346); (4349, 4351); (5024, 5109); (5112, 5117); (7296, 7304); (7312, 7354);
   (7357, 7359); (7424, 7467); (7531, 7543); (7545, 7578); (7680, 7957); (7960, 7965);
   (7968, 8005); (8008, 8013); (8016, 8023); (8025, 8025); (8027, 8027); (8029, 8029);
   (8031, 8061); (8064, 8116); (8118, 8124); (8126, 8126); (8130, 8132); (8134, 8140);
   (8144, 8147); (8150, 8155); (8160, 8172); (8178, 8180); (8182, 8188); (8450, 8450);
   (8455, 8455); (8458, 8467); (8469, 8469); (8473, 8477); (8484, 8484); (8486, 8486);
   (8488, 8488); (8490, 8493); (8495, 8500); (8505, 8505); (8508, 8511); (8517, 8521);
   (8526, 8526); (8544, 8575); (8579, 8580); (9398, 9449); (11264, 11387); (11390, 11492);
   (11499, 11502); (11506, 11507); (11520, 11557); (11559, 11559); (11565, 11565);
   (42560, 42605); (42624, 42651); (42786, 42863); (42865, 42887); (42891, 42894);
   (42896, 42954); (42960, 42961); (42963, 42963); (42965, 42969); (42997, 42998);
   (43002, 43002); (43824, 43866); (43872, 43880); (43888, 43967); (64256, 64262);
   (64275, 64279); (65313, 65338); (65345, 65370); (66560, 66639); (66736, 66771);
   (66776, 66811); (66928, 66938); (66940, 66954); (66956, 66962); (66964, 66965);
   (66967, 66977); (66979, 66993); (66995, 67001); (67003, 67004); (68736, 68786);
   (68800, 68850); (71840, 71903); (93760, 93823); (119808, 119892); (119894, 119964);
   (119966, 119967); (119970, 119970); (119973, 119974); (119977, 119980);
   (119982, 119993); (119995, 119995); (119997, 120003); (120005, 120069);
   (120071, 120074); (120077, 120084); (120086, 120092); (120094, 120121);
   (120123, 120126); (120128, 120132); (120134, 120134); (120138, 120144);
   (120146, 120485); (120488, 120512); (120514, 120538); (120540, 120570);
   (120572, 120596); (120598, 120628); (120630, 120654); (120656, 120686);
   (120688, 120712); (120714, 120744); (120746, 120770); (120772, 120779);
   (122624, 122633); (122635, 122654); (125184, 125251); (127280, 127305);
   (127312, 127337); (127344, 127369)]%N.

Definition in_ranges (ranges : list (N * N)) (c : N) : bool :=
  List.existsb (fun r => (fst r <=? c) && (c <=? snd r))%N ranges.

Definition in_run (c : N) (r : N * N * N * Z) : bool :=
  match r with
  | (first, last, step, _) =>
      ((first <=? c) && (c <=? last) && ((c - first) mod step =? 0))%N
  end.

Fixpoint lookup_special (table : list (N * list N)) (c : N) : option (list N) :=
  match table with
  | [] => None
  | (k, m) :: rest => if N.eqb k c then Some m else lookup_special rest c
  end.

Definition map_full (runs : list (N * N * N * Z)) (special : list (N * list N))
    (c : N) : list N :=
  match lookup_special special c with
  | Some m => m
  | None =>
      match List.find (in_run c) runs with
      | Some (_, _, _, delta) => [Z.to_N (Z.of_N c + delta)]
      | None => [c]
      end
  end.

Definition to_title_full : N -> list N := map_full title_runs title_special.
Definition to_lower_full : N -> list N := map_full lower_runs lower_special.

Definition is_case_ignorable : N -> bool := in_ranges case_ignorable_ranges.

(** Cased, for the code points the final-sigma rule stops at (those it does
    not skip). *)
Definition is_cased : N -> bool := in_ranges cased_ranges.

End Unicode.

(** ** Python strings *)

Module PyStr.

(** A [str] is a sequence of Unicode code points; [len], padding and
    repetition count code points. *)
Definition str := list N.

(** ASCII literals of the source. *)
Definition lit (s : string) : str :=
  List.map N_of_ascii (list_ascii_of_string s).

Definition SPACE : N := 32%N.
(** U+2500, the horizontal glyph, and U+2514, the corner glyph. *)
Definition HBAR : N := 9472%N.
Definition CORNER : N := 9492%N.

Definition len (s : str) : Z := Z.of_nat (List.length s).

Fixpoint eqb (a b : str) : bool :=
  match a, b with
  | [], [] => true
  | x :: a', y :: b' => N.eqb x y && eqb a' b'
  | _, _ => false
  end.

(** [s * n]: a count below one gives the empty string. *)
Definition mul (s : str) (n : Z) : str :=
  List.concat (List.repeat s (Z.to_nat n)).

(** Case of the ASCII letters, to state what the case mapping does on ASCII
    strings. *)
Definition is_upper (c : N) : bool := ((65 <=? c) && (c <=? 90))%N.
Definition is_lower (c : N) : bool := ((97 <=? c) && (c <=? 122))%N.
Definition upper_cp (c : N) : N := if is_lower c then (c - 32)%N else c.
Definition lower_cp (c : N) : N := if is_upper c then (c + 32)%N else c.
Definition is_ascii (s : str) : bool := List.forallb (fun c => c <? 128)%N s.

(** The final-sigma rule: a capital sigma is lower-cased to the final form
    when, skipping case-ignorable characters, a cased character comes
    before it and none comes after it. *)
Fixpoint skip_ignorable (s : str) : str :=
  match s with
  | [] => []
  | c :: rest => if Unicode.is_case_ignorable c then skip_ignorable rest else s
  end.

Definition final_sigma (before_rev after : str) : bool :=
  match skip_ignorable before_rev with
  | [] => false
  | c :: _ =>
      Unicode.is_cased c &&
      match skip_ignorable after with
      | [] => true
      | d :: _ => negb (Unicode.is_cased d)
      end
  end.

(** The lower-casing of the characters [s] of a string, where [before_rev]
    is what comes before them in that string, last character first. *)
Fixpoint lower_from (before_rev s : str) : str :=
  match s with
  | [] => []
  | c :: rest =>
      (if N.eqb c 931%N
       then [if final_sigma before_rev rest then 962%N else 963%N]
       else Unicode.to_lower_full c)
        ++ lower_from (c :: before_rev) rest
  end.

(** [s.lower()] *)
Definition lower (s : str) : str := lower_from [] s.

(** [s.capitalize()]: the first character in title case, the rest in lower
    case, by the full case mappings (one character may become several). *)
Definition capitalize (s : str) : str :=
  match s with
  | [] => []
  | c :: rest => Unicode.to_title_full c ++ lower_from [c] rest
  end.

(** [format(s, '12s')] for [width = 12]: left-aligned, padded with spaces
    up to [width]; a longer string is not cut. *)
Definition ljust (width : Z) (s : str) : str :=
  s ++ List.repeat SPACE (Z.to_nat (width - len s)).

(** [str(i)] for an [int]. *)
Definition of_int (i : Z) : str := lit (NilZero.string_of_int (Z.to_int i)).

End PyStr.

Import PyStr.

(** ** Python values and their classes *)

(** The class of a runtime value, as [type(x)] returns it. *)
Inductive pytype :=
| T_NoneType | T_list | T_dict | T_str | T_int | T_float | T_bool
| T_type                (* the class of a class object *)
| T_other (name : str). (* any other class, by its qualified name *)

(** Runtime values.  A [dict] keeps its entries in insertion order; a class
    object is its name and the attributes assigned to it, in assignment
    order; [VOther] is an instance of a class that is none of the above. *)
Unset Elimination Schemes.
Inductive pyobj :=
| VNone
| VBool (b : bool)
| VInt (n : Z)
| VFloat (f : spec_float)
| VStr (s : str)
| VList (items : list pyobj)
| VDict (items : list (str * pyobj))
| VClass (name : str) (attrs : list (str * pyobj))
| VOther (cls : str).
Set Elimination Schemes.

Definition type_of (v : pyobj) : pytype :=
  match v with
  | VNone => T_NoneType
  | VBool _ => T_bool
  | VInt _ => T_int
  | VFloat _ => T_float
  | VStr _ => T_str
  | VList _ => T_list
  | VDict _ => T_dict
  | VClass _ _ => T_type
  | VOther cls => T_other cls
  end.

(** ** Induction over values *)

Section PyobjInd.
Variable P : pyobj -> Prop.
Hypothesis HNone : P VNone.
Hypothesis HBool : forall b, P (VBool b).
Hypothesis HInt : forall n, P (VInt n).
Hypothesis HFloat : forall f, P (VFloat f).
Hypothesis HStr : forall s, P (VStr s).
Hypothesis HList : forall items, Forall P items -> P (VList items).
Hypothesis HDict :
  forall items, Forall (fun kv => P (snd kv)) items -> P (VDict items).
Hypothesis HClass :
  forall name attrs, Forall (fun kv => P (snd kv)) attrs -> P (VClass name attrs).
Hypothesis HOther : forall cls, P (VOther cls).

Fixpoint pyobj_ind (v : pyobj) : P v :=
  let entries :=
    fix entries (l : list (str * pyobj)) : Forall (fun kv => P (snd kv)) l :=
      match l with
      | [] => Forall_nil _
      | kv :: rest => Forall_cons kv (pyobj_ind (snd kv)) (entries rest)
      end in
  match v with
  | VNone => HNone
  | VBool b => HBool b
  | VInt n => HInt n
  | VFloat f => HFloat f
  | VStr s => HStr s
  | VList items =>
      HList items
        ((fix elements (l : list pyobj) : Forall P l :=
            match l with
            | [] => Forall_nil _
            | x :: rest => Forall_cons x (pyobj_ind x) (elements rest)
            end) items)
  | VDict items => HDict items (entries items)
  | VClass name attrs => HClass name attrs (entries attrs)
  | VOther cls => HOther cls
  end.
End PyobjInd.

(** [cls.__name__] *)
Definition type_name (t : pytype) : str :=
  match t with
  | T_NoneType => lit "NoneType"
  | T_list => lit "list"
  | T_dict => lit "dict"
  | T_str => lit "str"
  | T_int => lit "int"
  | T_float => lit "float"
  | T_bool => lit "bool"
  | T_type => lit "type"
  | T_other name => name
  end.

(** [repr(cls)] *)
Definition type_repr (t : pytype) : str :=
  lit "<class '" ++ type_name t ++ lit "'>".

Definition pytype_eqb (a b : pytype) : bool :=
  match a, b with
  | T_NoneType, T_NoneType | T_list, T_list | T_dict, T_dict
  | T_str, T_str | T_int, T_int | T_float, T_float | T_bool, T_bool
  | T_type, T_type => true
  | T_other x, T_other y => PyStr.eqb x y
  | _, _ => false
  end.

(** ** Exceptions and the error monad *)

Inductive exn :=
| ValueError (msg : str)
| TypeError (msg : str)
| AttributeError (msg : str)
| UnicodeEncodeError (object : str) (start : Z). (* utf-8, surrogates not allowed *)

Inductive result (A : Type) :=
| Ok (a : A)
| Raise (e : exn).
Arguments Ok {A} a.
Arguments Raise {A} e.

Module Res.
Definition bind {A B} (m : result A) (f : A -> result B) : result B :=
  match m with
  | Ok a => f a
  | Raise e => Raise e
  end.

(** A list comprehension whose element expression may raise. *)
Definition comprehension {A B} (f : A -> result B) : list A -> result (list B) :=
  fix go (l : list A) : result (list B) :=
    match l with
    | [] => Ok []
    | x :: rest => bind (f x) (fun y => bind (go rest) (fun ys => Ok (y :: ys)))
    end.
End Res.

Declare Scope res_scope.
Delimit Scope res_scope with res.
Notation "x <- m ;; k" := (Res.bind m (fun x => k))
  (at level 61, m at next level, right associativity) : res_scope.

(** ** [_KeyValue] *)

Record _KeyValue := mk_KeyValue { key : str; value : pyobj }.

Definition asiterable (self : _KeyValue) : str * pyobj :=
  (key self, value self).

(** ** [_Type] *)

Inductive _Type := NONETYPE | LIST | DICT | STRING | INT | FLOAT | BOOL.

Module Type_.

Definition members : list _Type := [NONETYPE; LIST; DICT; STRING; INT; FLOAT; BOOL].

(** [member.value] *)
Definition value (self : _Type) : pytype :=
  match self with
  | NONETYPE => T_NoneType
  | LIST => T_list
  | DICT => T_dict
  | STRING => T_str
  | INT => T_int
  | FLOAT => T_float
  | BOOL => T_bool
  end.

(** [member.name] *)
Definition name (self : _Type) : str :=
  match self with
  | NONETYPE => lit "NONETYPE"
  | LIST => lit "LIST"
  | DICT => lit "DICT"
  | STRING => lit "STRING"
  | INT => lit "INT"
  | FLOAT => lit "FLOAT"
  | BOOL => lit "BOOL"
  end.

Definition eqb (a b : _Type) : bool :=
  match a, b with
  | NONETYPE, NONETYPE | LIST, LIST | DICT, DICT | STRING, STRING
  | INT, INT | FLOAT, FLOAT | BOOL, BOOL => true
  | _, _ => false
  end.

(** [_Type(cls)]: the member whose value is [cls]; the enumeration raises
    [ValueError] when there is none. *)
Definition call (cls : pytype) : result _Type :=
  match List.find (fun m => pytype_eqb (value m) cls) members with
  | Some m => Ok m
  | None => Raise (ValueError (type_repr cls ++ lit " is not a valid _Type"))
  end.

Definition is_primitive (self : _Type) : bool :=
  List.existsb (eqb self) [STRING; INT; FLOAT; BOOL].

Definition is_none (self : _Type) : bool := eqb self NONETYPE.

(** [str(member)] *)
Definition to_str (self : _Type) : str := lit "_Type." ++ name self.

End Type_.

(** ** Class objects *)

(** What the runtime asks of the name of a class, when the class is made
    and when [__name__] is assigned: the name is encoded in UTF-8, which
    fails at the first surrogate, and must hold no null character. *)
Definition is_surrogate (c : N) : bool := ((55296 <=? c) && (c <=? 57343))%N.

Fixpoint first_surrogate (s : str) (index : Z) : option Z :=
  match s with
  | [] => None
  | c :: rest => if is_surrogate c then Some index else first_surrogate rest (index + 1)
  end.

Definition check_type_name (name : str) : result unit :=
  match first_surrogate name 0 with
  | Some index => Raise (UnicodeEncodeError name index)
  | None =>
      if List.existsb (N.eqb 0%N) name
      then Raise (ValueError (lit "type name must not contain null characters"))
      else Ok tt
  end.

(** [type(name, (), {})]: a new class with no attribute assigned yet. *)
Definition type_ (name : str) : result pyobj :=
  match check_type_name name with
  | Ok _ => Ok (VClass name [])
  | Raise e => Raise e
  end.

(** Assignment in a namespace: an existing name keeps its place and gets the
    new value, a new name is added at the end. *)
Fixpoint ns_set (name : str) (v : pyobj) (ns : list (str * pyobj)) : list (str * pyobj) :=
  match ns with
  | [] => [(name, v)]
  | (n, old) :: rest =>
      if PyStr.eqb n name then (n, v) :: rest else (n, old) :: ns_set name v rest
  end.


(** The names that a class object does not keep as plain attributes: the
    metaclass [type] (or [object], for [__class__]) has a data descriptor
    for each, which takes the assignment. *)
Definition readonly_members : list str :=
  [lit "__mro__"; lit "__base__"; lit "__basicsize__"; lit "__itemsize__";
   lit "__flags__"; lit "__weakrefoffset__"; lit "__dictoffset__"].

Definition unwritable_getsets : list str :=
  [lit "__dict__"; lit "__text_signature__"].

Definition reserved (name : str) : bool :=
  List.existsb (PyStr.eqb name)
    ([lit "__name__"; lit "__qualname__"; lit "__bases__"; lit "__class__"]
       ++ unwritable_getsets ++ readonly_members).

(** [setattr(obj, name, v)], on the class objects the converter builds, as
    CPython 3.11 does it.  The namespace of a class holds the attributes
    the program assigns to it.  [__name__] renames the class and
    [__qualname__] sets its qualified name, which is not kept here; both
    want a string.  [__bases__] wants a tuple, which no converted value is;
    [__class__] cannot be assigned on a class object.  The other reserved
    names are read-only.  Every other name, [__doc__] and [__module__]
    included, is stored.  The instances of the built-in classes take no
    new attribute. *)
Definition setattr (obj : pyobj) (name : str) (v : pyobj) : result pyobj :=
  match obj with
  | VClass n attrs =>
      if PyStr.eqb name (lit "__name__") then
        match v with
        | VStr s =>
            match check_type_name s with
            | Ok _ => Ok (VClass s attrs)
            | Raise e => Raise e
            end
        | _ => Raise (TypeError
                        (lit "can only assign string to " ++ n ++ lit ".__name__, not '"
                           ++ type_name (type_of v) ++ lit "'"))
        end
      else if PyStr.eqb name (lit "__qualname__") then
        match v with
        | VStr _ => Ok (VClass n attrs)
        | _ => Raise (TypeError
                        (lit "can only assign string to " ++ n ++ lit ".__qualname__, not '"
                           ++ type_name (type_of v) ++ lit "'"))
        end
      else if PyStr.eqb name (lit "__bases__") then
        Raise (TypeError
                 (lit "can only assign tuple to " ++ n ++ lit ".__bases__, not "
                    ++ type_name (type_of v)))
      else if PyStr.eqb name (lit "__class__") then
        match v with
        | VClass _ _ =>
            Raise (TypeError
                     (lit "__class__ assignment only supported for mutable types or ModuleType subclasses"))
        | _ => Raise (TypeError
                        (lit "__class__ must be set to a class, not '"
                           ++ type_name (type_of v) ++ lit "' object"))
        end
      else if List.existsb (PyStr.eqb name) unwritable_getsets then
        Raise (AttributeError
                 (lit "attribute '" ++ name ++ lit "' of 'type' objects is not writable"))
      else if List.existsb (PyStr.eqb name) readonly_members then
        Raise (AttributeError (lit "readonly attribute"))
      else
        Ok (VClass n (ns_set name v attrs))
  | _ => Raise (AttributeError
                  (lit "'" ++ type_name (type_of obj) ++ lit "' object has no attribute '"
                     ++ name ++ lit "'"))
  end.


(** ** The converter *)

Section Converter.
Local Open Scope res_scope.

(** The loop of [_new_class], with the recursive call to [_convert] left
    open: [for pair in data.items(): setattr(class_, ...)]. *)
Definition _new_class_loop (conv : str -> pyobj -> result _KeyValue)
  : list (str * pyobj) -> pyobj -> result pyobj :=
  fix loop (items : list (str * pyobj)) (class_ : pyobj) {struct items} : result pyobj :=
    match items with
    | [] => Ok class_
    | pair_ :: rest =>
        kv <- conv (fst pair_) (snd pair_) ;;
        class_ <- setattr class_ (fst (asiterable kv)) (snd (asiterable kv)) ;;
        loop rest class_
    end.

Definition _new_class_with (conv : str -> pyobj -> result _KeyValue)
    (name : str) (data : list (str * pyobj)) : result pyobj :=
  class_ <- type_ (capitalize name) ;;
  _new_class_loop conv data class_.

(** [_convert].  Where [dtype] is [LIST] (or [DICT]) the class of [data] is
    [list] (or [dict]), so the inner matches always take their first
    branch. *)
Fixpoint _convert (key : str) (data : pyobj) {struct data} : result _KeyValue :=
  dtype <- Type_.call (type_of data) ;;
  if Type_.is_primitive dtype || Type_.is_none dtype then
    Ok (mk_KeyValue key data)
  else if Type_.eqb dtype LIST then
    match data with
    | VList items =>
        value <- Res.comprehension
                   (fun item => kv <- _convert key item ;; Ok (value kv)) items ;;
        Ok (mk_KeyValue key (VList value))
    | _ => Raise (TypeError (lit "object is not iterable"))
    end
  else if Type_.eqb dtype DICT then
    match data with
    | VDict items =>
        value <- _new_class_with _convert key items ;;
        Ok (mk_KeyValue key value)
    | _ => Raise (AttributeError (lit "object has no attribute 'items'"))
    end
  else
    Raise (TypeError (lit "Unsupported type: " ++ Type_.to_str dtype
                        ++ lit " (" ++ type_repr (type_of data) ++ lit ")")).

Definition _new_class : str -> list (str * pyobj) -> result pyobj :=
  _new_class_with _convert.

End Converter.

(** ** The decoder object and its methods *)

(** The attributes of a [JSONDecoder]: [path] and [data] are set by the
    constructor, [istep] does not exist before [print_structure] sets it. *)
Record JSONDecoder := mk_JSONDecoder {
  path : str;
  data : pyobj;
  istep : option Z
}.

(** What a method can read and write: its [self] and the standard output,
    one entry per call of [print]. *)
Record world := mk_world {
  self : JSONDecoder;
  stdout : list str
}.

(** A method either returns or raises, and leaves a world behind in both
    cases. *)
Definition M (A : Type) : Type := world -> result A * world.

Module Eff.
Definition ret {A} (a : A) : M A := fun w => (Ok a, w).

Definition raise {A} (e : exn) : M A := fun w => (Raise e, w).

Definition bind {A B} (m : M A) (f : A -> M B) : M B :=
  fun w =>
    match m w with
    | (Ok a, w') => f a w'
    | (Raise e, w') => (Raise e, w')
    end.

Definition lift {A} (r : result A) : M A := fun w => (r, w).

(** [self.data] *)
Definition get_data : M pyobj := fun w => (Ok (data (self w)), w).

(** [self.istep] *)
Definition get_istep : M Z :=
  fun w =>
    match istep (self w) with
    | Some i => (Ok i, w)
    | None =>
        (Raise (AttributeError (lit "'JSONDecoder' object has no attribute 'istep'")), w)
    end.

(** [self.istep = i] *)
Definition set_istep (i : Z) : M unit :=
  fun w =>
    (Ok tt,
     mk_world (mk_JSONDecoder (path (self w)) (data (self w)) (Some i)) (stdout w)).

(** [print(line)] *)
Definition print (line : str) : M unit :=
  fun w => (Ok tt, mk_world (self w) (stdout w ++ [line])).

(** [for x in l: body(x)] *)
Definition for_ {A} (body : A -> M unit) : list A -> M unit :=
  fix go (l : list A) : M unit :=
    match l with
    | [] => ret tt
    | x :: rest => bind (body x) (fun _ => go rest)
    end.

(** [for index, x in enumerate(l): body(index, x)], counting from [start]. *)
Definition for_enumerate {A} (body : Z -> A -> M unit) : Z -> list A -> M unit :=
  fix go (start : Z) (l : list A) : M unit :=
    match l with
    | [] => ret tt
    | x :: rest => bind (body start x) (fun _ => go (start + 1) rest)
    end.
End Eff.

Declare Scope eff_scope.
Delimit Scope eff_scope with eff.
Notation "x <- m ;; k" := (Eff.bind m (fun x => k))
  (at level 61, m at next level, right associativity) : eff_scope.
Notation "m ;;; k" := (Eff.bind m (fun _ => k))
  (at level 61, right associativity) : eff_scope.

Section Methods.
Local Open Scope eff_scope.
Import Eff.

Definition run : M pyobj :=
  data <- get_data ;;
  kv <- lift (_convert (lit "root") data) ;;
  ret (value kv).

(** The line of a primitive node. *)
Definition leaf_line (name : str) (dtype : _Type) (indent : Z) : str :=
  let prefix := mul [SPACE] (indent - 1) ++ [HBAR] in
  prefix ++ ljust 12 name ++ lit "/" ++ lower (Type_.name dtype) ++ lit "/".

(** The line of any other node that is not called root. *)
Definition node_line (istep : Z) (name : str) (dtype : _Type) (indent : Z) : str :=
  let prefix := mul [SPACE] (indent - istep) ++ [CORNER] ++ mul [HBAR] (istep - 1) in
  prefix ++ name ++ lit " /" ++ type_name (Type_.value dtype) ++ lit "/".

Fixpoint _print_structure (name : str) (value : pyobj) (indent : Z) {struct value}
  : M unit :=
  dtype <- lift (Type_.call (type_of value)) ;;
  if Type_.is_primitive dtype then
    print (leaf_line name dtype indent)
  else
    (if PyStr.eqb name (lit "root") then
       print (lit ".")
     else
       istep <- get_istep ;;
       print (node_line istep name dtype indent)) ;;;
    (if Type_.eqb dtype DICT then
       match value with
       | VDict items =>
           for_ (fun item =>
                   istep <- get_istep ;;
                   _print_structure (fst item) (snd item) (indent + istep)) items
       | _ => raise (AttributeError (lit "object has no attribute 'items'"))
       end
     else ret tt) ;;;
    (if Type_.eqb dtype LIST then
       match value with
       | VList items =>
           for_enumerate
             (fun index value =>
                istep <- get_istep ;;
                _print_structure (lit "#" ++ of_int index) value (indent + istep))
             0 items
       | _ => raise (TypeError (lit "object is not iterable"))
       end
     else ret tt).

(** [print_structure(indentstep)]; [_print_structure] is called without
    its third argument, whose default is [0]. *)
Definition print_structure_with (indentstep : Z) : M unit :=
  if indentstep <? 1 then
    raise (ValueError (lit "indentstep must be at least 1."))
  else
    set_istep indentstep ;;;
    data <- get_data ;;
    _print_structure (lit "root") data 0.

(** The call as the caller writes it: [None] is the call without an
    argument, which takes the default of the signature. *)
Definition print_structure (indentstep : option Z) : M unit :=
  print_structure_with (match indentstep with Some i => i | None => 4 end).

End Methods.

(** ** JSON documents *)

Fixpoint distinct (l : list str) : bool :=
  match l with
  | [] => true
  | x :: rest => negb (List.existsb (PyStr.eqb x) rest) && distinct rest
  end.

(** What the loader leaves in [self.data]: null, booleans, numbers, strings,
    lists of such values and dicts of such values, a dict having each key
    once. *)
Fixpoint is_json (v : pyobj) : bool :=
  match v with
  | VNone | VBool _ | VInt _ | VFloat _ | VStr _ => true
  | VList items => List.forallb is_json items
  | VDict items =>
      distinct (List.map fst items) && List.forallb (fun kv => is_json (snd kv)) items
  | VClass _ _ | VOther _ => false
  end.

(** The names under which [_convert] makes a class can name one, and no key
    of a mapping is a name that class objects reserve: [label] is the label
    the value is converted under. *)
Definition nameable (name : str) : bool :=
  List.forallb (fun c => negb (N.eqb c 0%N) && negb (is_surrogate c)) name.

Fixpoint names_ok (label : str) (v : pyobj) : bool :=
  match v with
  | VList items => List.forallb (names_ok label) items
  | VDict items =>
      nameable (capitalize label) &&
      List.forallb (fun e => negb (reserved (fst e)) && names_ok (fst e) (snd e)) items
  | _ => true
  end.

(** The class name as the specification words it, to compare with
    [capitalize]: first letter capitalized, the rest left as it is. *)
Definition first_letter_capitalized (k : str) : str :=
  match k with
  | [] => []
  | c :: rest => upper_cp c :: rest
  end.

(** The kinds the converter returns as they are. *)
Definition is_primitive_or_null (v : pyobj) : bool :=
  match v with
  | VNone | VBool _ | VInt _ | VFloat _ | VStr _ => true
  | _ => false
  end.

(** The kinds the printer prints as leaves. *)
Definition is_primitive_value (v : pyobj) : bool :=
  match v with
  | VBool _ | VInt _ | VFloat _ | VStr _ => true
  | _ => false
  end.

(** The document of the end-to-end scenario,
    [{"name": "Alice", "age": 30, "tags": ["x", "y"]}], and a decoder that
    has just loaded it. *)
Definition example_document : pyobj :=
  VDict [(lit "name", VStr (lit "Alice")); (lit "age", VInt 30);
         (lit "tags", VList [VStr (lit "x"); VStr (lit "y")])].

Definition loaded (document : pyobj) : world :=
  mk_world (mk_JSONDecoder (lit "document.json") document None) [].

(** ** Vocabulary of the statements *)

Module PrinterSpec.
Import Eff.
Local Open Scope eff_scope.

(** The line that comes before the children of a node that is not a
    primitive, as [_print_structure] prints it. *)
Definition header (name : str) (dtype : _Type) (indent : Z) : M unit :=
  if PyStr.eqb name (lit "root") then print (lit ".")
  else istep <- get_istep ;; print (node_line istep name dtype indent).

(** With [self.istep] set to [i], [m] returns and appends to the output. *)
Definition prints (i : Z) (m : M unit) : Prop :=
  forall w, istep (self w) = Some i ->
            exists out, m w = (Ok tt, mk_world (self w) (stdout w ++ out)).

(** The same, with at least one line. *)
Definition prints_some (i : Z) (m : M unit) : Prop :=
  forall w, istep (self w) = Some i ->
            exists line out, m w = (Ok tt, mk_world (self w) (stdout w ++ line :: out)).

(** [m] leaves [self] as it found it, whether it returns or raises. *)
Definition keeps_self {A} (m : M A) : Prop :=
  forall w, self (snd (m w)) = self w.

End PrinterSpec.

(** ** Vocabulary of the further statements *)

(** Every node is of one of the seven kinds of [_Type]. *)
Fixpoint json_kinds (v : pyobj) : bool :=
  match v with
  | VNone | VBool _ | VInt _ | VFloat _ | VStr _ => true
  | VList items => List.forallb json_kinds items
  | VDict items => List.forallb (fun kv => json_kinds (snd kv)) items
  | VClass _ _ | VOther _ => false
  end.

(** Made of null, primitives and lists only. *)
Fixpoint mapping_free (v : pyobj) : bool :=
  match v with
  | VNone | VBool _ | VInt _ | VFloat _ | VStr _ => true
  | VList items => List.forallb mapping_free items
  | VDict _ | VClass _ _ | VOther _ => false
  end.

(** No dict at any depth, the attributes of classes included. *)
Fixpoint no_dict (v : pyobj) : bool :=
  match v with
  | VDict _ => false
  | VList items => List.forallb no_dict items
  | VClass _ attrs => List.forallb (fun a => no_dict (snd a)) attrs
  | _ => true
  end.

(** The dicts and the class objects of a value, at every depth. *)
Fixpoint count_dicts (v : pyobj) : nat :=
  match v with
  | VList items => List.list_sum (List.map count_dicts items)
  | VDict items => S (List.list_sum (List.map (fun e => count_dicts (snd e)) items))
  | VClass _ attrs => List.list_sum (List.map (fun e => count_dicts (snd e)) attrs)
  | _ => 0
  end.

Fixpoint count_classes (v : pyobj) : nat :=
  match v with
  | VList items => List.list_sum (List.map count_classes items)
  | VDict items => List.list_sum (List.map (fun e => count_classes (snd e)) items)
  | VClass _ attrs => S (List.list_sum (List.map (fun e => count_classes (snd e)) attrs))
  | _ => 0
  end.

(** The nodes of a document: the value itself, the elements of its lists
    and the values of its dicts, at every depth. *)
Fixpoint nodes (v : pyobj) : nat :=
  match v with
  | VList items => S (List.list_sum (List.map nodes items))
  | VDict items => S (List.list_sum (List.map (fun e => nodes (snd e)) items))
  | _ => 1
  end.

(** The pre-order listing of a document, to compare with what
    [_print_structure] prints: the line of the node, then the listings of
    its children in order, one step deeper, the elements of a list under
    the labels [#0], [#1], ... *)
Definition own_line (istep : Z) (name : str) (dtype : _Type) (indent : Z) : str :=
  if Type_.is_primitive dtype then leaf_line name dtype indent
  else if PyStr.eqb name (lit "root") then lit "."
  else node_line istep name dtype indent.

Definition concat_enumerate {A} (f : Z -> A -> list str) : Z -> list A -> list str :=
  fix go (start : Z) (l : list A) : list str :=
    match l with
    | [] => []
    | x :: rest => f start x ++ go (start + 1) rest
    end.

Fixpoint structure_lines (istep : Z) (name : str) (value : pyobj) (indent : Z)
    {struct value} : list str :=
  match value with
  | VNone => [own_line istep name NONETYPE indent]
  | VBool _ => [own_line istep name BOOL indent]
  | VInt _ => [own_line istep name INT indent]
  | VFloat _ => [own_line istep name FLOAT indent]
  | VStr _ => [own_line istep name STRING indent]
  | VList items =>
      own_line istep name LIST indent
        :: concat_enumerate
             (fun index x => structure_lines istep (lit "#" ++ of_int index) x (indent + istep))
             0 items
  | VDict items =>
      own_line istep name DICT indent
        :: List.flat_map
             (fun e => structure_lines istep (fst e) (snd e) (indent + istep)) items
  | VClass _ _ | VOther _ => []
  end.

(** With [self.istep] set to [i], [m] returns and appends exactly [out]. *)
Definition prints_lines (i : Z) (m : M unit) (out : list str) : Prop :=
  forall w, istep (self w) = Some i ->
            m w = (Ok tt, mk_world (self w) (stdout w ++ out)).

(** * Properties *)

(** ** Strings and namespaces *)

Module PyStrFacts.

Lemma eqb_eq (a b : str) : PyStr.eqb a b = true <-> a = b.
Proof.
  revert b; induction a as [|x a IH]; destruct b as [|y b]; simpl;
    try (split; [discriminate | congruence]); [tauto|].
  rewrite andb_true_iff, N.eqb_eq, IH.
  split; [intros [] | intros [=]]; subst; auto.
Qed.

Lemma eqb_refl (a : str) : PyStr.eqb a a = true.
Proof. now apply eqb_eq. Qed.

Lemma eqb_neq (a b : str) : PyStr.eqb a b = false <-> a <> b.
Proof. rewrite <- eqb_eq. destruct (PyStr.eqb a b); split; congruence. Qed.

Lemma existsb_eqb_In (x : str) (l : list str) :
  List.existsb (PyStr.eqb x) l = true <-> In x l.
Proof.
  rewrite existsb_exists. split.
  - intros (y & Hy & E). apply eqb_eq in E. now subst.
  - intros H. exists x. split; [assumption | apply eqb_refl].
Qed.

Lemma distinct_NoDup (l : list str) : distinct l = true <-> NoDup l.
Proof.
  induction l as [|x l IH]; simpl.
  - split; [constructor | reflexivity].
  - rewrite andb_true_iff, negb_true_iff, IH. split.
    + intros [Hx Hl]. constructor; [|assumption].
      intros Hin. apply existsb_eqb_In in Hin. congruence.
    + intros H. inversion H as [|? ? Hx Hl]; subst. split; [|assumption].
      destruct (List.existsb (PyStr.eqb x) l) eqn:E; [|reflexivity].
      apply existsb_eqb_In in E. contradiction.
Qed.

(** On the ASCII code points the tables are the familiar ones. *)
Lemma ascii_tables_checked :
  List.forallb
    (fun n => PyStr.eqb (Unicode.to_title_full (N.of_nat n)) [upper_cp (N.of_nat n)]
              && PyStr.eqb (Unicode.to_lower_full (N.of_nat n)) [lower_cp (N.of_nat n)])
    (List.seq 0 128)
  = true.
Proof. vm_compute. reflexivity. Qed.

Lemma ascii_case (c : N) :
  (c < 128)%N ->
  Unicode.to_title_full c = [upper_cp c] /\ Unicode.to_lower_full c = [lower_cp c].
Proof.
  intros Hc. pose proof ascii_tables_checked as H. rewrite forallb_forall in H.
  specialize (H (N.to_nat c)). rewrite N2Nat.id in H.
  assert (Hin : In (N.to_nat c) (List.seq 0 128)) by (apply in_seq; lia).
  apply H in Hin. apply andb_true_iff in Hin. destruct Hin as [Ht Hl].
  apply eqb_eq in Ht, Hl. auto.
Qed.

Lemma lower_from_ascii (before_rev s : str) :
  is_ascii s = true -> lower_from before_rev s = List.map lower_cp s.
Proof.
  revert before_rev. induction s as [|c s IH]; intros before_rev H; [reflexivity|].
  cbn [is_ascii List.forallb] in H. apply andb_true_iff in H. destruct H as [Hc Hs].
  apply N.ltb_lt in Hc. cbn [lower_from List.map].
  replace (N.eqb c 931) with false by (symmetry; apply N.eqb_neq; lia).
  destruct (ascii_case c Hc) as [_ ->]. cbn [List.app]. f_equal. now apply IH.
Qed.

(** [capitalize] on an ASCII string: the first character upper-cased, the
    others lower-cased, one for one. *)
Lemma capitalize_ascii (c : N) (rest : str) :
  is_ascii (c :: rest) = true ->
  capitalize (c :: rest) = upper_cp c :: List.map lower_cp rest.
Proof.
  intros H. cbn [is_ascii List.forallb] in H. apply andb_true_iff in H.
  destruct H as [Hc Hs]. apply N.ltb_lt in Hc. unfold capitalize.
  destruct (ascii_case c Hc) as [-> _]. cbn [List.app]. f_equal.
  now apply lower_from_ascii.
Qed.

Lemma nameable_check (name : str) :
  nameable name = true -> check_type_name name = Ok tt.
Proof.
  intros H. unfold check_type_name.
  assert (Hs : forall index, first_surrogate name index = None).
  { induction name as [|c name IH]; intros index; [reflexivity|].
    cbn [nameable List.forallb] in H. apply andb_true_iff in H. destruct H as [Hc Hn].
    apply andb_true_iff in Hc. destruct Hc as [_ Hc]. apply negb_true_iff in Hc.
    cbn [first_surrogate]. rewrite Hc. now apply IH. }
  rewrite Hs.
  assert (Hz : List.existsb (N.eqb 0%N) name = false).
  { induction name as [|c name IH]; [reflexivity|].
    cbn [nameable List.forallb] in H. apply andb_true_iff in H. destruct H as [Hc Hn].
    apply andb_true_iff in Hc. destruct Hc as [Hc _]. apply negb_true_iff in Hc.
    cbn [List.existsb]. rewrite N.eqb_sym, Hc. simpl. apply IH; [assumption|].
    intros index. specialize (Hs (index - 1)). cbn [first_surrogate] in Hs.
    destruct (is_surrogate c); [discriminate|].
    now replace (index - 1 + 1) with index in Hs by lia. }
  now rewrite Hz.
Qed.

Lemma nameable_type (name : str) :
  nameable name = true -> type_ name = Ok (VClass name []).
Proof. intros H. unfold type_. now rewrite (nameable_check name H). Qed.

Lemma reserved_setattr (n name : str) (attrs : list (str * pyobj)) (v : pyobj) :
  reserved name = false ->
  setattr (VClass n attrs) name v = Ok (VClass n (ns_set name v attrs)).
Proof.
  unfold reserved. rewrite !existsb_app. cbn [List.existsb].
  rewrite !orb_false_iff. intros ((H1 & H2 & H3 & H4 & _) & Hg & Hm).
  unfold setattr. now rewrite H1, H2, H3, H4, Hg, Hm.
Qed.

End PyStrFacts.

Module Namespace.
Import PyStrFacts.

Lemma set_fresh (name : str) (v : pyobj) (ns : list (str * pyobj)) :
  ~ In name (List.map fst ns) -> ns_set name v ns = ns ++ [(name, v)].
Proof.
  induction ns as [|[n old] ns IH]; simpl; intros Hfresh; [reflexivity|].
  destruct (PyStr.eqb n name) eqn:E.
  - apply eqb_eq in E. tauto.
  - rewrite IH; [reflexivity | tauto].
Qed.



End Namespace.

(** ** The converter *)

Module ConverterFacts.
Import PyStrFacts.
Local Open Scope res_scope.

Lemma convert_list (k : str) (items : list pyobj) :
  _convert k (VList items) =
  (vs <- Res.comprehension (fun item => kv <- _convert k item ;; Ok (value kv)) items ;;
   Ok (mk_KeyValue k (VList vs))).
Proof. reflexivity. Qed.

Lemma convert_dict (k : str) (items : list (str * pyobj)) :
  _convert k (VDict items) =
  (c <- _new_class k items ;; Ok (mk_KeyValue k c)).
Proof. reflexivity. Qed.

(** The enumeration has no member for a class object or for an instance of
    a foreign class. *)
Lemma call_unknown (t : pytype) :
  List.existsb (fun m => pytype_eqb (Type_.value m) t) Type_.members = false ->
  Type_.call t = Raise (ValueError (type_repr t ++ lit " is not a valid _Type")).
Proof.
  intros H. unfold Type_.call.
  destruct (List.find _ Type_.members) as [m|] eqn:E; [|reflexivity].
  apply find_some in E. destruct E as [Hin Hm].
  assert (Hex : List.existsb (fun m => pytype_eqb (Type_.value m) t) Type_.members = true)
    by (apply existsb_exists; eauto).
  congruence.
Qed.

Lemma convert_unknown (k : str) (v : pyobj) :
  List.existsb (fun m => pytype_eqb (Type_.value m) (type_of v)) Type_.members = false ->
  _convert k v = Raise (ValueError (type_repr (type_of v) ++ lit " is not a valid _Type")).
Proof.
  intros H. apply call_unknown in H.
  destruct v; simpl in *; try discriminate H; reflexivity.
Qed.

(** The pair that comes back carries the label it was called with. *)
Lemma convert_key (k : str) (v : pyobj) (kv : _KeyValue) :
  _convert k v = Ok kv -> key kv = k.
Proof.
  destruct v; try (simpl; intros [= <-]; reflexivity); try discriminate.
  - rewrite convert_list. destruct (Res.comprehension _ _); simpl; [|discriminate].
    now intros [= <-].
  - rewrite convert_dict. destruct (_new_class _ _); simpl; [|discriminate].
    now intros [= <-].
Qed.

Lemma comprehension_ok {A B} (f : A -> result B) (l : list A) :
  Forall (fun x => exists y, f x = Ok y) l ->
  exists ys, Res.comprehension f l = Ok ys /\ Forall2 (fun x y => f x = Ok y) l ys.
Proof.
  induction 1 as [|x l [y Hy] _ (ys & Hys & Hall)]; simpl.
  - exists []. split; [reflexivity | constructor].
  - exists (y :: ys). rewrite Hy; simpl. rewrite Hys; simpl.
    split; [reflexivity | now constructor].
Qed.

Lemma new_class_loop_cons (conv : str -> pyobj -> result _KeyValue)
    (p : str * pyobj) (items : list (str * pyobj)) (class_ : pyobj) :
  _new_class_loop conv (p :: items) class_
  = (kv <- conv (fst p) (snd p) ;;
     class_ <- setattr class_ (fst (asiterable kv)) (snd (asiterable kv)) ;;
     _new_class_loop conv items class_).
Proof. reflexivity. Qed.

(** Under a label that can name a class, [_new_class] starts its loop from
    the empty class of that name. *)
Lemma new_class_nameable (conv : str -> pyobj -> result _KeyValue) (k : str)
    (items : list (str * pyobj)) :
  nameable (capitalize k) = true ->
  _new_class_with conv k items
  = _new_class_loop conv items (VClass (capitalize k) []).
Proof.
  intros H. unfold _new_class_with. now rewrite (nameable_type _ H).
Qed.

(** The loop of [_new_class] on entries with fresh, pairwise distinct keys,
    none of them reserved, appends one attribute per entry, in order. *)
Lemma new_class_loop_ok (conv : str -> pyobj -> result _KeyValue)
    (items : list (str * pyobj)) :
  Forall (fun e => exists o, conv (fst e) (snd e) = Ok (mk_KeyValue (fst e) o)) items ->
  Forall (fun e => reserved (fst e) = false) items ->
  forall (name : str) (attrs : list (str * pyobj)),
    NoDup (List.map fst attrs ++ List.map fst items) ->
    exists fields,
      _new_class_loop conv items (VClass name attrs) = Ok (VClass name (attrs ++ fields)) /\
      Forall2 (fun e f => fst f = fst e /\
                          conv (fst e) (snd e) = Ok (mk_KeyValue (fst e) (snd f)))
              items fields.
Proof.
  induction 1 as [|e items [o Ho] _ IH]; intros Hres name attrs Hnd.
  - exists []. rewrite app_nil_r. split; [reflexivity | constructor].
  - inversion Hres as [|? ? He Hrest]; subst.
    rewrite new_class_loop_cons, Ho. cbn [Res.bind asiterable fst snd key value].
    rewrite (reserved_setattr _ _ _ _ He). cbn [Res.bind].
    cbn [List.map] in Hnd.
    rewrite Namespace.set_fresh.
    2:{ apply NoDup_remove_2 in Hnd. intros Hin. apply Hnd. apply in_or_app. now left. }
    destruct (IH Hrest name (attrs ++ [(fst e, o)])) as (fields & Hloop & Hall).
    { rewrite map_app, <- app_assoc. exact Hnd. }
    exists ((fst e, o) :: fields). rewrite Hloop, <- app_assoc.
    split; [reflexivity|]. constructor; [|assumption]. cbn [fst snd]. auto.
Qed.

Lemma comprehension_raise {A B} (f : A -> result B) (l : list A) (e : exn) :
  Res.comprehension f l = Raise e -> exists x, In x l /\ f x = Raise e.
Proof.
  induction l as [|x l IH]; simpl; [discriminate|].
  destruct (f x) as [y|e'] eqn:Ex; simpl.
  - destruct (Res.comprehension f l) as [ys|e'']; simpl; [discriminate|].
    intros [= <-]. destruct IH as (x' & Hin & Hx'); [reflexivity|]. eauto.
  - intros [= <-]. eauto.
Qed.

(** With no reserved key, what the loop of [_new_class] raises was raised
    by the conversion of an entry. *)
Lemma new_class_loop_raise (items : list (str * pyobj)) (e : exn) :
  Forall (fun p => reserved (fst p) = false) items ->
  forall name attrs,
    _new_class_loop _convert items (VClass name attrs) = Raise e ->
    exists p, In p items /\ _convert (fst p) (snd p) = Raise e.
Proof.
  induction 1 as [|p items Hp _ IH]; intros name attrs; [discriminate|].
  rewrite new_class_loop_cons.
  destruct (_convert (fst p) (snd p)) as [kv|e'] eqn:Ep; cbn [Res.bind].
  - pose proof (convert_key _ _ _ Ep) as Hk. cbn [asiterable fst snd]. rewrite Hk.
    rewrite (reserved_setattr _ _ _ _ Hp). cbn [Res.bind].
    intros H. apply IH in H. destruct H as (p' & Hin & Hp'). exists p'. split; [now right | exact Hp'].
  - intros [= <-]. exists p. split; [now left | exact Ep].
Qed.

Lemma names_ok_dict (k : str) (m : list (str * pyobj)) :
  names_ok k (VDict m) = true ->
  nameable (capitalize k) = true /\
  Forall (fun e => reserved (fst e) = false) m /\
  Forall (fun e => names_ok (fst e) (snd e) = true) m.
Proof.
  cbn [names_ok]. intros H. apply andb_true_iff in H. destruct H as [Hname Hkeys].
  rewrite forallb_forall in Hkeys. split; [exact Hname|].
  split; apply Forall_forall; intros e He; specialize (Hkeys e He);
    apply andb_true_iff in Hkeys; destruct Hkeys as [Hr Hn];
    [now apply negb_true_iff | exact Hn].
Qed.

(** On a JSON value whose labels can name classes and whose keys are not
    reserved the converter returns. *)
Lemma convert_total (v : pyobj) :
  is_json v = true ->
  forall k, names_ok k v = true -> exists o, _convert k v = Ok (mk_KeyValue k o).
Proof.
  induction v as [| | | | |items IH|items IH|name attrs IH|cls] using pyobj_ind;
    intros Hjson k Hn; try discriminate; try (eexists; reflexivity).
  - (* list *)
    cbn [is_json] in Hjson. cbn [names_ok] in Hn.
    rewrite forallb_forall in Hjson, Hn. rewrite Forall_forall in IH.
    destruct (comprehension_ok
                (fun item => kv <- _convert k item ;; Ok (value kv)) items)
      as (ys & Hys & _).
    { apply Forall_forall. intros x Hx.
      destruct (IH x Hx (Hjson x Hx) k (Hn x Hx)) as [o Ho]. exists o. now rewrite Ho. }
    rewrite convert_list, Hys. eexists; reflexivity.
  - (* dict *)
    cbn [is_json] in Hjson. apply andb_true_iff in Hjson. destruct Hjson as [Hd Hall].
    cbn [names_ok] in Hn. apply andb_true_iff in Hn. destruct Hn as [Hname Hkeys].
    rewrite forallb_forall in Hall, Hkeys. rewrite Forall_forall in IH.
    apply distinct_NoDup in Hd.
    destruct (new_class_loop_ok _convert items) with (name := capitalize k) (attrs := @nil (str * pyobj))
      as (fields & Hloop & _).
    { apply Forall_forall. intros e He. specialize (Hkeys e He).
      apply andb_true_iff in Hkeys. exact (IH e He (Hall e He) (fst e) (proj2 Hkeys)). }
    { apply Forall_forall. intros e He. specialize (Hkeys e He).
      apply andb_true_iff in Hkeys. now apply negb_true_iff. }
    { exact Hd. }
    rewrite convert_dict. unfold _new_class.
    rewrite (new_class_nameable _ _ _ Hname), Hloop. eexists; reflexivity.
Qed.

End ConverterFacts.

Section ConverterClaims.
Import PyStrFacts ConverterFacts.
Local Open Scope res_scope.

Lemma Forall2_In_l {A B} (R : A -> B -> Prop) (l : list A) (l' : list B) (x : A) :
  Forall2 R l l' -> In x l -> exists y, In y l' /\ R x y.
Proof.
  induction 1 as [|a b l l' Hab _ IH]; simpl; [contradiction|].
  intros [<- | Hin].
  - exists b. auto.
  - destruct (IH Hin) as (y & Hy & Hxy). exists y. auto.
Qed.


(** What [_convert] returns on a JSON mapping whose labels can name classes
    and whose keys are not reserved: a class named by the capitalized
    label, with one attribute per entry, in the order of the entries, each
    holding the conversion of the entry's value under the entry's key. *)
Lemma convert_mapping (k : str) (m : list (str * pyobj)) :
  is_json (VDict m) = true ->
  names_ok k (VDict m) = true ->
  exists fields,
    _convert k (VDict m) = Ok (mk_KeyValue k (VClass (capitalize k) fields)) /\
    Forall2 (fun e f => fst f = fst e /\
                        _convert (fst e) (snd e) = Ok (mk_KeyValue (fst e) (snd f)))
            m fields.
Proof.
  intros Hjson Hn. cbn [is_json] in Hjson. apply andb_true_iff in Hjson.
  destruct Hjson as [Hd Hall]. rewrite forallb_forall in Hall.
  apply distinct_NoDup in Hd.
  destruct (names_ok_dict k m Hn) as (Hname & Hres & Hsub).
  rewrite Forall_forall in Hsub.
  destruct (new_class_loop_ok _convert m) with (name := capitalize k) (attrs := @nil (str * pyobj))
    as (fields & Hloop & HF).
  - apply Forall_forall. intros e He. apply convert_total; auto.
  - exact Hres.
  - exact Hd.
  - exists fields. split; [|exact HF].
    rewrite convert_dict. unfold _new_class.
    now rewrite (new_class_nameable _ _ _ Hname), Hloop.
Qed.




(** C2.  A boolean, an integer, a float, a string or null is returned as
    it is, paired with the label. *)
Theorem convert_primitive_identity (k : str) (v : pyobj) :
  is_primitive_or_null v = true ->
  _convert k v = Ok (mk_KeyValue k v).
Proof. destruct v; simpl; intros H; try discriminate H; reflexivity. Qed.

Lemma convert_primitive_identity_witness :
  _convert (lit "k") (VInt 42) = Ok (mk_KeyValue (lit "k") (VInt 42)).
Proof. apply convert_primitive_identity. reflexivity. Defined.

(** C3, as stated, fails: a sequence that holds a mapping with the key
    [__name__] and a value that is no string cannot be converted. *)
Lemma convert_sequence_reserved_key_raises :
  _convert (lit "k") (VList [VInt 1; VDict [(lit "__name__", VInt 1)]])
  = Raise (TypeError (lit "can only assign string to K.__name__, not 'int'")).
Proof. reflexivity. Qed.

(** C3, amended.  Take a JSON sequence and a label such that every label
    under which a mapping is converted can name a class and no key, at any
    depth, is a name that class objects reserve.  Converting the sequence
    under label [k] gives a sequence of the same length whose i-th element
    is the conversion of the i-th element of the input, and that
    conversion is made under the same label [k]. *)
Theorem convert_sequence (k : str) (s : list pyobj) :
  is_json (VList s) = true ->
  names_ok k (VList s) = true ->
  exists vs,
    _convert k (VList s) = Ok (mk_KeyValue k (VList vs)) /\
    List.length vs = List.length s /\
    forall (i : nat) (x : pyobj),
      nth_error s i = Some x ->
      exists o, _convert k x = Ok (mk_KeyValue k o) /\ nth_error vs i = Some o.
Proof.
  intros Hjson Hn. cbn [is_json] in Hjson. cbn [names_ok] in Hn.
  rewrite forallb_forall in Hjson, Hn.
  destruct (comprehension_ok
              (fun item => kv <- _convert k item ;; Ok (value kv)) s)
    as (vs & Hvs & HF).
  { apply Forall_forall. intros x Hx.
    destruct (convert_total x (Hjson x Hx) k (Hn x Hx)) as [o Ho]. exists o. now rewrite Ho. }
  exists vs. rewrite convert_list, Hvs. split; [reflexivity|].
  split; [symmetry; eapply Forall2_length; eassumption|].
  clear Hvs. induction HF as [|x y s vs Hxy _ IH]; intros i z Hi.
  - destruct i; discriminate.
  - destruct i as [|i]; cbn [nth_error] in *.
    + injection Hi as <-.
      destruct (convert_total x (Hjson x (or_introl eq_refl)) k (Hn x (or_introl eq_refl)))
        as [o Ho].
      rewrite Ho in Hxy. cbn in Hxy. injection Hxy as <-. eauto.
    + apply IH; [| |assumption]; intros x0 Hx0; [apply Hjson | apply Hn]; now right.
Qed.

Lemma convert_sequence_witness :
  exists vs,
    _convert (lit "k") (VList [VInt 1; VInt 2; VInt 3])
    = Ok (mk_KeyValue (lit "k") (VList vs)) /\
    List.length vs = 3%nat /\
    forall (i : nat) (x : pyobj),
      nth_error [VInt 1; VInt 2; VInt 3] i = Some x ->
      exists o, _convert (lit "k") x = Ok (mk_KeyValue (lit "k") o) /\
                nth_error vs i = Some o.
Proof.
  apply (convert_sequence (lit "k") [VInt 1; VInt 2; VInt 3]); reflexivity.
Defined.

End ConverterClaims.

(** ** The structure printer *)

Module PrinterFacts.
Import PyStrFacts Eff PrinterSpec.
Local Open Scope eff_scope.

Lemma mul_space (n : Z) : mul [SPACE] n = List.repeat SPACE (Z.to_nat n).
Proof.
  unfold mul. induction (Z.to_nat n) as [|k IH]; simpl; [reflexivity|].
  now rewrite IH.
Qed.

Lemma print_none (name : str) (indent : Z) :
  _print_structure name VNone indent =
  (header name NONETYPE indent ;;; ret tt ;;; ret tt).
Proof. reflexivity. Qed.

Lemma print_list (name : str) (items : list pyobj) (indent : Z) :
  _print_structure name (VList items) indent =
  (header name LIST indent ;;;
   ret tt ;;;
   for_enumerate
     (fun index value =>
        istep <- get_istep ;;
        _print_structure (lit "#" ++ of_int index) value (indent + istep))
     0 items).
Proof. reflexivity. Qed.

Lemma print_dict (name : str) (items : list (str * pyobj)) (indent : Z) :
  _print_structure name (VDict items) indent =
  (header name DICT indent ;;;
   for_ (fun item =>
           istep <- get_istep ;;
           _print_structure (fst item) (snd item) (indent + istep)) items ;;;
   ret tt).
Proof. reflexivity. Qed.

(** Past its guard, [print_structure] records the step and starts the
    walk at the root. *)
Lemma print_structure_with_walk (i : Z) (w : world) :
  (i <? 1) = false ->
  print_structure_with i w
  = _print_structure (lit "root") (data (self w)) 0
      (mk_world (mk_JSONDecoder (path (self w)) (data (self w)) (Some i)) (stdout w)).
Proof. intros E. unfold print_structure_with. rewrite E. reflexivity. Qed.

(** *** Methods that only print *)

Lemma prints_some_prints (i : Z) (m : M unit) : prints_some i m -> prints i m.
Proof. intros H w Hi. destruct (H w Hi) as (line & out & E). eauto. Qed.

Lemma prints_ret (i : Z) : prints i (ret tt).
Proof. intros [s o] _. exists []. unfold ret. simpl. now rewrite app_nil_r. Qed.

Lemma prints_some_print (i : Z) (line : str) : prints_some i (print line).
Proof. intros w _. exists line, []. reflexivity. Qed.

Lemma prints_get_istep (i : Z) (k : Z -> M unit) :
  prints i (k i) -> prints i (x <- get_istep ;; k x).
Proof.
  intros Hk w Hi. unfold Eff.bind, get_istep. rewrite Hi. now apply Hk.
Qed.

Lemma prints_some_get_istep (i : Z) (k : Z -> M unit) :
  prints_some i (k i) -> prints_some i (x <- get_istep ;; k x).
Proof.
  intros Hk w Hi. unfold Eff.bind, get_istep. rewrite Hi. now apply Hk.
Qed.

Lemma prints_seq (i : Z) (m k : M unit) :
  prints i m -> prints i k -> prints i (m ;;; k).
Proof.
  intros Hm Hk w Hi. destruct (Hm w Hi) as [o1 E1].
  destruct (Hk (mk_world (self w) (stdout w ++ o1)) Hi) as [o2 E2].
  exists (o1 ++ o2). unfold Eff.bind. rewrite E1, E2. simpl. now rewrite app_assoc.
Qed.

Lemma prints_some_seq (i : Z) (m k : M unit) :
  prints_some i m -> prints i k -> prints_some i (m ;;; k).
Proof.
  intros Hm Hk w Hi. destruct (Hm w Hi) as (line & o1 & E1).
  destruct (Hk (mk_world (self w) (stdout w ++ line :: o1)) Hi) as [o2 E2].
  exists line, (o1 ++ o2). unfold Eff.bind. rewrite E1, E2. simpl.
  now rewrite <- app_assoc.
Qed.

Lemma prints_for {A} (i : Z) (body : A -> M unit) (l : list A) :
  Forall (fun x => prints i (body x)) l -> prints i (for_ body l).
Proof.
  induction 1 as [|x l Hx _ IH]; simpl; [apply prints_ret|].
  now apply prints_seq.
Qed.

Lemma prints_for_enumerate {A} (i : Z) (body : Z -> A -> M unit) (l : list A) :
  Forall (fun x => forall index, prints i (body index x)) l ->
  forall start, prints i (for_enumerate body start l).
Proof.
  induction 1 as [|x l Hx _ IH]; intros start; simpl; [apply prints_ret|].
  apply prints_seq; [apply Hx | apply IH].
Qed.

Lemma prints_some_header (i : Z) (name : str) (dtype : _Type) (indent : Z) :
  prints_some i (header name dtype indent).
Proof.
  unfold header. destruct (PyStr.eqb name (lit "root")).
  - apply prints_some_print.
  - apply prints_some_get_istep, prints_some_print.
Qed.

(** On a JSON value, and once [self.istep] is set, the walk returns and
    has printed at least the line of the node itself. *)
Lemma print_structure_json (v : pyobj) :
  is_json v = true ->
  forall i name indent, prints_some i (_print_structure name v indent).
Proof.
  induction v as [| | | | |items IH|items IH|cname attrs IH|cls] using pyobj_ind;
    intros Hjson i name indent; try discriminate;
    try (apply prints_some_print).
  - rewrite print_none.
    apply prints_some_seq; [apply prints_some_header|].
    apply prints_seq; apply prints_ret.
  - rewrite print_list. simpl in Hjson. rewrite forallb_forall in Hjson.
    rewrite Forall_forall in IH.
    apply prints_some_seq; [apply prints_some_header|].
    apply prints_seq; [apply prints_ret|].
    apply prints_for_enumerate, Forall_forall. intros x Hx index.
    apply prints_get_istep, prints_some_prints, IH; auto.
  - rewrite print_dict. simpl in Hjson. apply andb_true_iff in Hjson.
    destruct Hjson as [_ Hall]. rewrite forallb_forall in Hall.
    rewrite Forall_forall in IH.
    apply prints_some_seq; [apply prints_some_header|].
    apply prints_seq; [|apply prints_ret].
    apply prints_for, Forall_forall. intros e He.
    apply prints_get_istep, prints_some_prints, IH; auto.
Qed.

(** *** Methods that leave [self] alone *)

Lemma keeps_ret {A} (a : A) : keeps_self (ret a).
Proof. intros w. reflexivity. Qed.

Lemma keeps_raise {A} (e : exn) : keeps_self (@raise A e).
Proof. intros w. reflexivity. Qed.

Lemma keeps_lift {A} (r : result A) : keeps_self (lift r).
Proof. intros w. reflexivity. Qed.

Lemma keeps_print (line : str) : keeps_self (print line).
Proof. intros w. reflexivity. Qed.

Lemma keeps_get_istep : keeps_self get_istep.
Proof. intros w. unfold get_istep. now destruct (istep (self w)). Qed.

Lemma keeps_get_data : keeps_self get_data.
Proof. intros w. reflexivity. Qed.

Lemma keeps_bind {A B} (m : M A) (k : A -> M B) :
  keeps_self m -> (forall a, keeps_self (k a)) -> keeps_self (x <- m ;; k x).
Proof.
  intros Hm Hk w. unfold Eff.bind. specialize (Hm w).
  destruct (m w) as [[a|e] w']; simpl in *.
  - now rewrite Hk.
  - exact Hm.
Qed.

Lemma keeps_for {A} (body : A -> M unit) (l : list A) :
  Forall (fun x => keeps_self (body x)) l -> keeps_self (for_ body l).
Proof.
  induction 1 as [|x l Hx _ IH]; simpl; [apply keeps_ret|].
  apply keeps_bind; auto.
Qed.

Lemma keeps_for_enumerate {A} (body : Z -> A -> M unit) (l : list A) :
  Forall (fun x => forall index, keeps_self (body index x)) l ->
  forall start, keeps_self (for_enumerate body start l).
Proof.
  induction 1 as [|x l Hx _ IH]; intros start; simpl; [apply keeps_ret|].
  apply keeps_bind; auto.
Qed.

Lemma keeps_header (name : str) (dtype : _Type) (indent : Z) :
  keeps_self (header name dtype indent).
Proof.
  unfold header. destruct (PyStr.eqb name (lit "root")).
  - apply keeps_print.
  - apply keeps_bind; [apply keeps_get_istep | intros; apply keeps_print].
Qed.

(** The walk of the printer writes to the output only, whatever value it
    is given and whether it returns or raises. *)
Lemma print_structure_keeps_self (v : pyobj) :
  forall name indent, keeps_self (_print_structure name v indent).
Proof.
  induction v as [| | | | |items IH|items IH|cname attrs IH|cls] using pyobj_ind;
    intros name indent;
    try (intros w; reflexivity).
  - rewrite print_none.
    repeat (apply keeps_bind; [|intros _]); auto using keeps_header, keeps_ret.
  - rewrite print_list.
    repeat (apply keeps_bind; [|intros _]); auto using keeps_header, keeps_ret.
    apply keeps_for_enumerate. eapply Forall_impl; [|exact IH].
    intros x Hx index. apply keeps_bind; [apply keeps_get_istep | intros; apply Hx].
  - rewrite print_dict.
    repeat (apply keeps_bind; [|intros _]); auto using keeps_header, keeps_ret.
    apply keeps_for. eapply Forall_impl; [|exact IH].
    intros e He. apply keeps_bind; [apply keeps_get_istep | intros; apply He].
Qed.

End PrinterFacts.

Section ConverterNameAndKindClaims.
Import PyStrFacts ConverterFacts.

(** C6, as stated, fails: under the label [myKey] the class is named
    [Mykey], not [MyKey]; the characters after the first are lower-cased. *)
Lemma record_name_lowercases_tail :
  _convert (lit "myKey") (VDict [])
  = Ok (mk_KeyValue (lit "myKey") (VClass (lit "Mykey") [])) /\
  lit "Mykey" <> first_letter_capitalized (lit "myKey").
Proof. split; [reflexivity | discriminate]. Qed.

(** C6, amended.  Take a JSON mapping and a label [k] such that every
    label under which a mapping is converted can name a class and no key is
    a name that class objects reserve.  The class synthesized for the
    mapping is named [k.capitalize()]: the first character in title case
    and every later character in lower case, by the full case mappings.
    For an ASCII label that is: as long as [k], the first letter
    upper-cased and every later letter lower-cased. *)
Theorem record_name_capitalize (k : str) (m : list (str * pyobj)) :
  is_json (VDict m) = true ->
  names_ok k (VDict m) = true ->
  exists (name : str) (fields : list (str * pyobj)),
    _convert k (VDict m) = Ok (mk_KeyValue k (VClass name fields)) /\
    name = capitalize k /\
    (is_ascii k = true ->
     List.length name = List.length k /\
     forall (i : nat) (c : N),
       nth_error k i = Some c ->
       nth_error name i = Some (if Nat.eqb i 0 then upper_cp c else lower_cp c)).
Proof.
  intros Hjson Hn. destruct (convert_mapping k m Hjson Hn) as (fields & Hconv & _).
  exists (capitalize k), fields. split; [exact Hconv|]. split; [reflexivity|].
  intros Hascii. destruct k as [|c0 rest].
  - split; [reflexivity|]. intros [|i] c; discriminate.
  - rewrite (capitalize_ascii c0 rest Hascii). split.
    + cbn [List.length]. now rewrite length_map.
    + intros [|i] c Hi; cbn [nth_error Nat.eqb] in *.
      * now injection Hi as <-.
      * now rewrite nth_error_map, Hi.
Qed.

Lemma record_name_capitalize_witness :
  exists (name : str) (fields : list (str * pyobj)),
    _convert (lit "myKey") (VDict [(lit "a", VInt 1)])
    = Ok (mk_KeyValue (lit "myKey") (VClass name fields)) /\
    name = capitalize (lit "myKey") /\
    (is_ascii (lit "myKey") = true ->
     List.length name = List.length (lit "myKey") /\
     forall (i : nat) (c : N),
       nth_error (lit "myKey") i = Some c ->
       nth_error name i = Some (if Nat.eqb i 0 then upper_cp c else lower_cp c)).
Proof.
  apply (record_name_capitalize (lit "myKey") [(lit "a", VInt 1)]);
    vm_compute; reflexivity.
Defined.

(** C7, on the code.  A value whose class is not one of the seven of
    [_Type] makes the enumeration raise [ValueError] on the first line of
    [_convert], before the [TypeError] of the last line can be reached: so
    for an instance of any foreign class, for a class object, and for a
    tuple; in general for every value whose class is the value of no
    member. *)
Theorem convert_foreign_kind_raises_ValueError :
  (forall k cls,
     _convert k (VOther cls)
     = Raise (ValueError (lit "<class '" ++ cls ++ lit "'> is not a valid _Type"))) /\
  (forall k name attrs,
     _convert k (VClass name attrs)
     = Raise (ValueError (lit "<class 'type'> is not a valid _Type"))) /\
  _convert (lit "k") (VOther (lit "tuple"))
  = Raise (ValueError (lit "<class 'tuple'> is not a valid _Type")) /\
  (forall k v,
     List.existsb (fun m => pytype_eqb (Type_.value m) (type_of v)) Type_.members = false ->
     _convert k v
     = Raise (ValueError (type_repr (type_of v) ++ lit " is not a valid _Type")) /\
     forall msg, _convert k v <> Raise (TypeError msg)).
Proof.
  split; [|split; [reflexivity|]; split; [reflexivity|]].
  - intros k cls. rewrite (convert_unknown k (VOther cls)) by reflexivity.
    unfold type_repr. cbn [type_of type_name].
    rewrite <- !app_assoc. reflexivity.
  - intros k v H. rewrite (convert_unknown k v H). split; [reflexivity | discriminate].
Qed.

End ConverterNameAndKindClaims.

Section PrinterClaims.
Import PyStrFacts PrinterSpec PrinterFacts Eff.

(** C4, on the code.  [_convert] takes null with the primitives
    ([is_primitive() or is_none()]); [_print_structure] tests
    [is_primitive()] alone, so null goes the way of the containers: for the
    document [{"a": null}] and a step of 4 the printer writes [.] and the
    corner line [└───a /NoneType/], which is no leaf line whatever the
    tag. *)
Theorem print_null_not_a_leaf_line :
  stdout (snd (print_structure (Some 4) (loaded (VDict [(lit "a", VNone)]))))
  = [lit "."; [CORNER; HBAR; HBAR; HBAR] ++ lit "a /NoneType/"] /\
  forall tag,
    [CORNER; HBAR; HBAR; HBAR] ++ lit "a /NoneType/"
    <> List.repeat SPACE 3 ++ [HBAR] ++ ljust 12 (lit "a") ++ lit "/" ++ tag ++ lit "/".
Proof. split; [reflexivity | discriminate]. Qed.

(** The leaf line, for the kinds that do get one.  For a node that is a
    boolean, an integer, a float or a string, at any depth, the printer
    writes one line: [indent - 1] spaces (none at indent 0), the glyph [─],
    the label left-justified in a field of twelve, then the tag [bool],
    [int], [float] or [string] between slashes. *)
Lemma print_primitive_line (name : str) (v : pyobj) (indent : Z) (w : world) :
  is_primitive_value v = true ->
  exists tag,
    match v with
    | VBool _ => tag = lit "bool"
    | VInt _ => tag = lit "int"
    | VFloat _ => tag = lit "float"
    | VStr _ => tag = lit "string"
    | _ => False
    end /\
    _print_structure name v indent w
    = (Ok tt,
       mk_world (self w)
         (stdout w ++
            [List.repeat SPACE (Z.to_nat (indent - 1)) ++ [HBAR]
               ++ ljust 12 name ++ lit "/" ++ tag ++ lit "/"])).
Proof.
  intros Hv.
  assert (Hline : forall dtype,
             print (leaf_line name dtype indent) w
             = (Ok tt,
                mk_world (self w)
                  (stdout w ++
                     [List.repeat SPACE (Z.to_nat (indent - 1)) ++ [HBAR]
                        ++ ljust 12 name ++ lit "/" ++ lower (Type_.name dtype)
                        ++ lit "/"]))).
  { intros dtype. unfold print, leaf_line. cbv zeta.
    now rewrite mul_space, <- app_assoc. }
  destruct v; try discriminate Hv.
  - exists (lit "bool"). split; [reflexivity | exact (Hline BOOL)].
  - exists (lit "int"). split; [reflexivity | exact (Hline INT)].
  - exists (lit "float"). split; [reflexivity | exact (Hline FLOAT)].
  - exists (lit "string"). split; [reflexivity | exact (Hline STRING)].
Qed.

Lemma print_primitive_line_witness :
  exists tag,
    tag = lit "string" /\
    _print_structure (lit "name") (VStr (lit "Alice")) 4 (loaded example_document)
    = (Ok tt,
       mk_world (self (loaded example_document))
         (stdout (loaded example_document) ++
            [List.repeat SPACE (Z.to_nat (4 - 1)) ++ [HBAR]
               ++ ljust 12 (lit "name") ++ lit "/" ++ tag ++ lit "/"])).
Proof.
  apply (print_primitive_line (lit "name") (VStr (lit "Alice")) 4
           (loaded example_document)).
  reflexivity.
Defined.

(** C5.  On a loaded JSON document, [print_structure(indentstep)] raises
    exactly when [indentstep < 1]; it then raises the [ValueError] of its
    guard and prints nothing; for [indentstep >= 1] it returns, having
    recorded the step and printed at least the line of the root. *)
Theorem print_structure_raises_iff (indentstep : Z) (w : world) :
  is_json (data (self w)) = true ->
  ((exists e, fst (print_structure (Some indentstep) w) = Raise e) <-> indentstep < 1) /\
  (indentstep < 1 ->
   print_structure (Some indentstep) w
   = (Raise (ValueError (lit "indentstep must be at least 1.")), w)) /\
  (1 <= indentstep ->
   exists line out,
     print_structure (Some indentstep) w
     = (Ok tt,
        mk_world (mk_JSONDecoder (path (self w)) (data (self w)) (Some indentstep))
          (stdout w ++ line :: out))).
Proof.
  intros Hjson.
  assert (Hlow : indentstep < 1 ->
                 print_structure (Some indentstep) w
                 = (Raise (ValueError (lit "indentstep must be at least 1.")), w)).
  { intros Hlt. unfold print_structure, print_structure_with.
    apply Z.ltb_lt in Hlt. now rewrite Hlt. }
  assert (Hhigh : 1 <= indentstep ->
                  exists line out,
                    print_structure (Some indentstep) w
                    = (Ok tt,
                       mk_world (mk_JSONDecoder (path (self w)) (data (self w))
                                   (Some indentstep))
                         (stdout w ++ line :: out))).
  { intros Hge. unfold print_structure.
    rewrite print_structure_with_walk by (apply Z.ltb_ge; lia).
    destruct (print_structure_json _ Hjson indentstep (lit "root") 0
                (mk_world (mk_JSONDecoder (path (self w)) (data (self w))
                             (Some indentstep)) (stdout w)) eq_refl)
      as (line & out & Hrun).
    exists line, out. exact Hrun. }
  split; [|split; assumption].
  split.
  - intros [e He]. destruct (Z.lt_ge_cases indentstep 1) as [|Hge]; [assumption|].
    destruct (Hhigh Hge) as (line & out & Hrun). rewrite Hrun in He. discriminate.
  - intros Hlt. rewrite (Hlow Hlt). eexists; reflexivity.
Qed.

Lemma print_structure_raises_iff_witness :
  (exists e, fst (print_structure (Some 0) (loaded example_document)) = Raise e) /\
  (exists line out,
     print_structure (Some 4) (loaded example_document)
     = (Ok tt,
        mk_world
          (mk_JSONDecoder (path (self (loaded example_document)))
             (data (self (loaded example_document))) (Some 4))
          (stdout (loaded example_document) ++ line :: out))).
Proof.
  split.
  - apply (print_structure_raises_iff 0 (loaded example_document)); [reflexivity | lia].
  - apply (print_structure_raises_iff 4 (loaded example_document)); [reflexivity | lia].
Defined.

End PrinterClaims.

Section ScenarioAndFrameClaims.
Import PyStrFacts PrinterSpec PrinterFacts Eff.

(** C8, as stated, fails: the line of [name] is a leaf line,
    [   ─name        /string/], not a corner line [└───name /str/], and
    the tag of a string is [string], not [str], also on the lines of [#0]
    and [#1]. *)
Lemma example_name_line_is_no_corner_line :
  nth 1 (stdout (snd (print_structure (Some 4) (loaded example_document)))) []
  = List.repeat SPACE 3 ++ [HBAR] ++ lit "name        /string/" /\
  nth 1 (stdout (snd (print_structure (Some 4) (loaded example_document)))) []
  <> [CORNER; HBAR; HBAR; HBAR] ++ lit "name /str/" /\
  nth 4 (stdout (snd (print_structure (Some 4) (loaded example_document)))) []
  <> List.repeat SPACE 7 ++ [HBAR] ++ lit "#0          /str/" /\
  nth 5 (stdout (snd (print_structure (Some 4) (loaded example_document)))) []
  <> List.repeat SPACE 7 ++ [HBAR] ++ lit "#1          /str/".
Proof.
  split; [reflexivity|]. repeat split; vm_compute; discriminate.
Qed.

(** C8, amended.  For [{"name": "Alice", "age": 30, "tags": ["x", "y"]}]
    and a step of 4 the printer returns and has printed six lines: [.]
    for the root; the leaf lines of [name], tagged [string], and of
    [age], tagged [int], each with three spaces and [─] before the label;
    the corner line [└───tags /list/]; and the leaf lines of [#0] and
    [#1], tagged [string], with seven spaces and [─] before the label,
    four columns deeper than the label of [tags]. *)
Theorem example_structure_output :
  print_structure (Some 4) (loaded example_document)
  = (Ok tt,
     mk_world (mk_JSONDecoder (lit "document.json") example_document (Some 4))
       [ lit ".";
         List.repeat SPACE 3 ++ [HBAR] ++ lit "name        /string/";
         List.repeat SPACE 3 ++ [HBAR] ++ lit "age         /int/";
         [CORNER; HBAR; HBAR; HBAR] ++ lit "tags /list/";
         List.repeat SPACE 7 ++ [HBAR] ++ lit "#0          /string/";
         List.repeat SPACE 7 ++ [HBAR] ++ lit "#1          /string/" ]).
Proof. reflexivity. Qed.

(** C9.  Neither walk writes to the document: [run] leaves the whole
    world as it found it, and [print_structure], whatever its argument
    and whether it returns or raises, leaves [self.data] (and
    [self.path]) as they were; it writes [self.istep] and the output
    only. *)
Theorem walks_leave_document_unchanged (w : world) (indentstep : option Z) :
  snd (run w) = w /\
  data (self (snd (print_structure indentstep w))) = data (self w) /\
  path (self (snd (print_structure indentstep w))) = path (self w).
Proof.
  split.
  - unfold run, Eff.bind, get_data, lift, ret.
    now destruct (_convert (lit "root") (data (self w))).
  - unfold print_structure.
    destruct (match indentstep with Some i => i | None => 4 end <? 1) eqn:E.
    + unfold print_structure_with. rewrite E. split; reflexivity.
    + rewrite print_structure_with_walk by exact E.
      rewrite print_structure_keeps_self. split; reflexivity.
Qed.

(** C10.  The call without an argument is the call with a step of 4. *)
Theorem print_structure_default_step (w : world) :
  print_structure None w = print_structure (Some 4) w.
Proof. reflexivity. Qed.

End ScenarioAndFrameClaims.

(** * Further properties of the code *)

(** ** The enumeration *)

(** X1.  Looking a class up in [_Type] inverts [.value]: every member is
    found again from its value, and a member found for a class has that
    class as its value; no two members share a value. *)
Theorem Type_call_value_round_trip :
  (forall m, Type_.call (Type_.value m) = Ok m) /\
  (forall t m, Type_.call t = Ok m <-> Type_.value m = t).
Proof.
  assert (H : forall m, Type_.call (Type_.value m) = Ok m)
    by (intros []; reflexivity).
  split; [exact H|]. intros t m. split.
  - destruct t; cbn; intros [= <-]; reflexivity.
  - intros <-. apply H.
Qed.

(** ** The converter, beyond JSON documents *)

Module ConverterMore.
Import PyStrFacts ConverterFacts.
Local Open Scope res_scope.

Lemma comprehension_Ok_inv {A B} (f : A -> result B) (l : list A) (ys : list B) :
  Res.comprehension f l = Ok ys -> Forall2 (fun x y => f x = Ok y) l ys.
Proof.
  revert ys. induction l as [|x l IH]; simpl; intros ys.
  - intros [= <-]. constructor.
  - destruct (f x) as [y|e] eqn:Ex; simpl; [|discriminate].
    destruct (Res.comprehension f l) as [ys'|e]; simpl; [|discriminate].
    intros [= <-]. constructor; auto.
Qed.

Lemma comprehension_same {A} (f : A -> result A) (l : list A) :
  Forall (fun x => f x = Ok x) l -> Res.comprehension f l = Ok l.
Proof.
  induction 1 as [|x l Hx _ IH]; simpl; [reflexivity|].
  now rewrite Hx, IH.
Qed.


Lemma type_Ok_inv (name : str) (c : pyobj) : type_ name = Ok c -> c = VClass name [].
Proof.
  unfold type_. destruct (check_type_name name); [|discriminate]. now intros [= <-].
Qed.

Lemma ns_set_Forall (P : pyobj -> Prop) (name : str) (v : pyobj)
    (ns : list (str * pyobj)) :
  Forall (fun a => P (snd a)) ns -> P v -> Forall (fun a => P (snd a)) (ns_set name v ns).
Proof.
  intros Hns Hv. induction ns as [|[n old] ns IH]; cbn [ns_set].
  - constructor; [exact Hv | constructor].
  - inversion Hns; subst. destruct (PyStr.eqb n name); constructor; auto.
Qed.

(** An assignment that returns leaves a class, with the attributes it had
    and at most the assigned value more. *)
Lemma setattr_Ok_inv (n name : str) (attrs : list (str * pyobj)) (v c : pyobj) :
  setattr (VClass n attrs) name v = Ok c ->
  exists n' attrs',
    c = VClass n' attrs' /\
    forall P : pyobj -> Prop,
      Forall (fun a => P (snd a)) attrs -> P v -> Forall (fun a => P (snd a)) attrs'.
Proof.
  unfold setattr. intros H.
  destruct (PyStr.eqb name (lit "__name__")).
  { destruct v; try discriminate H.
    destruct (check_type_name s); [|discriminate H].
    injection H as <-. eauto. }
  destruct (PyStr.eqb name (lit "__qualname__")).
  { destruct v; try discriminate H. injection H as <-. eauto. }
  destruct (PyStr.eqb name (lit "__bases__")); [discriminate H|].
  destruct (PyStr.eqb name (lit "__class__")); [destruct v; discriminate H|].
  destruct (List.existsb (PyStr.eqb name) unwritable_getsets); [discriminate H|].
  destruct (List.existsb (PyStr.eqb name) readonly_members); [discriminate H|].
  injection H as <-. exists n, (ns_set name v attrs). split; [reflexivity|].
  intros P. apply ns_set_Forall.
Qed.

(** The loop of [_new_class], read backwards: when it returns, it returns a
    class, every entry was converted, and what holds of the attributes it
    started from and of every converted value holds of all the attributes
    in the end. *)
Lemma new_class_loop_Ok_inv (conv : str -> pyobj -> result _KeyValue)
    (items : list (str * pyobj)) :
  forall name attrs c,
    _new_class_loop conv items (VClass name attrs) = Ok c ->
    exists name' attrs',
      c = VClass name' attrs' /\
      Forall (fun e => exists kv, conv (fst e) (snd e) = Ok kv) items /\
      forall P : pyobj -> Prop,
        Forall (fun a => P (snd a)) attrs ->
        Forall (fun e => forall kv, conv (fst e) (snd e) = Ok kv -> P (value kv)) items ->
        Forall (fun a => P (snd a)) attrs'.
Proof.
  induction items as [|e items IH]; intros name attrs c.
  - intros [= <-]. exists name, attrs. repeat split; auto.
  - rewrite new_class_loop_cons.
    destruct (conv (fst e) (snd e)) as [kv|err] eqn:Ee; cbn [Res.bind]; [|discriminate].
    cbn [asiterable fst snd].
    destruct (setattr (VClass name attrs) (key kv) (value kv)) as [c1|err] eqn:Es;
      cbn [Res.bind]; [|discriminate].
    apply setattr_Ok_inv in Es. destruct Es as (n1 & attrs1 & -> & H1).
    intros H. apply IH in H. destruct H as (name' & attrs' & -> & Hall & HP).
    exists name', attrs'. split; [reflexivity|]. split; [constructor; eauto|].
    intros P Hattrs Hitems. inversion Hitems as [|? ? Hkv Hrest]; subst.
    apply HP; [|assumption]. apply H1; [assumption|]. now apply Hkv.
Qed.

Lemma new_class_loop_succeeds (items : list (str * pyobj)) :
  Forall (fun e => exists kv, _convert (fst e) (snd e) = Ok kv) items ->
  Forall (fun e => reserved (fst e) = false) items ->
  forall name attrs,
    exists attrs', _new_class_loop _convert items (VClass name attrs) = Ok (VClass name attrs').
Proof.
  induction 1 as [|e items [kv Hkv] _ IH]; intros Hres name attrs.
  - eexists; reflexivity.
  - inversion Hres as [|? ? He Hrest]; subst.
    rewrite new_class_loop_cons, Hkv. cbn [Res.bind asiterable fst snd].
    rewrite (convert_key _ _ _ Hkv), (reserved_setattr _ _ _ _ He). cbn [Res.bind].
    now apply IH.
Qed.

Lemma convert_item_Ok (k : str) (x y : pyobj) :
  (kv <- _convert k x ;; Ok (value kv)) = Ok y ->
  exists kv, _convert k x = Ok kv /\ value kv = y.
Proof.
  destruct (_convert k x) as [kv|e]; simpl; [|discriminate].
  intros [= <-]. eauto.
Qed.

(** The two ways [_convert] on a dict can go, past the making of the
    class. *)
Lemma convert_dict_Ok_inv (k : str) (items : list (str * pyobj)) (kv : _KeyValue) :
  _convert k (VDict items) = Ok kv ->
  exists c,
    kv = mk_KeyValue k c /\
    _new_class_loop _convert items (VClass (capitalize k) []) = Ok c.
Proof.
  rewrite convert_dict. unfold _new_class, _new_class_with.
  destruct (type_ (capitalize k)) as [c0|e] eqn:Et; cbn [Res.bind]; [|discriminate].
  apply type_Ok_inv in Et. subst c0.
  destruct (_new_class_loop _convert items _) as [c|e]; cbn [Res.bind]; [|discriminate].
  intros [= <-]. eauto.
Qed.

Lemma convert_returns_json_kinds (v : pyobj) :
  forall k, (exists kv, _convert k v = Ok kv) -> json_kinds v = true.
Proof.
  induction v as [| | | | |items IH|items IH|name attrs IH|cls] using pyobj_ind;
    intros k [kv Hkv]; try reflexivity; try (cbn in Hkv; discriminate Hkv).
  - rewrite convert_list in Hkv.
    destruct (Res.comprehension _ items) as [vs|e] eqn:E; [|discriminate].
    apply comprehension_Ok_inv in E. cbn [json_kinds]. apply forallb_forall. intros x Hx.
    rewrite Forall_forall in IH.
    destruct (Forall2_In_l _ _ _ _ E Hx) as (y & _ & Hy).
    apply convert_item_Ok in Hy. destruct Hy as (kv' & Hkv' & _).
    apply (IH x Hx k). eauto.
  - apply convert_dict_Ok_inv in Hkv. destruct Hkv as (c & _ & E).
    apply new_class_loop_Ok_inv in E. destruct E as (name' & attrs' & _ & Hall & _).
    cbn [json_kinds]. apply forallb_forall. intros e He.
    rewrite Forall_forall in IH, Hall. apply (IH e He (fst e)). auto.
Qed.

Lemma convert_json_kinds_returns (v : pyobj) :
  json_kinds v = true ->
  forall k, names_ok k v = true -> exists o, _convert k v = Ok (mk_KeyValue k o).
Proof.
  induction v as [| | | | |items IH|items IH|name attrs IH|cls] using pyobj_ind;
    intros Hk k Hn; try discriminate; try (eexists; reflexivity).
  - cbn [json_kinds] in Hk. cbn [names_ok] in Hn.
    rewrite forallb_forall in Hk, Hn. rewrite Forall_forall in IH.
    destruct (comprehension_ok
                (fun item => kv <- _convert k item ;; Ok (value kv)) items)
      as (ys & Hys & _).
    { apply Forall_forall. intros x Hx.
      destruct (IH x Hx (Hk x Hx) k (Hn x Hx)) as [o Ho]. exists o. now rewrite Ho. }
    rewrite convert_list, Hys. eexists; reflexivity.
  - cbn [json_kinds] in Hk. rewrite forallb_forall in Hk. rewrite Forall_forall in IH.
    destruct (names_ok_dict k items Hn) as (Hname & Hres & Hsub).
    rewrite Forall_forall in Hsub.
    destruct (new_class_loop_succeeds items) with (name := capitalize k)
      (attrs := @nil (str * pyobj)) as (attrs' & Hloop).
    { apply Forall_forall. intros e He.
      destruct (IH e He (Hk e He) (fst e) (Hsub e He)) as [o Ho]. eauto. }
    { exact Hres. }
    rewrite convert_dict. unfold _new_class.
    rewrite (new_class_nameable _ _ _ Hname), Hloop. eexists; reflexivity.
Qed.

End ConverterMore.

Section ConverterExtras.
Import PyStrFacts ConverterFacts ConverterMore.
Local Open Scope res_scope.

(** X2.  [_convert] returns only on values all of whose nodes are of one of
    the seven kinds of [_Type]; and it does return on such a value when
    every label under which a mapping is converted can name a class and no
    key is a name that class objects reserve. *)
Theorem convert_returns_json_kinds_names (k : str) (v : pyobj) :
  ((exists kv, _convert k v = Ok kv) -> json_kinds v = true) /\
  (json_kinds v = true -> names_ok k v = true -> exists kv, _convert k v = Ok kv).
Proof.
  split.
  - apply convert_returns_json_kinds.
  - intros H Hn. destruct (convert_json_kinds_returns v H k Hn) as [o Ho]. eauto.
Qed.

(** X3.  When every label under which a mapping is converted can name a
    class and no key is a name that class objects reserve, whatever
    [_convert] raises is the [ValueError] of the enumeration, for a class
    that is no value of a member; it raises nothing else, at any depth. *)
Theorem convert_raises_only_enum_ValueError (k : str) (v : pyobj) (e : exn) :
  names_ok k v = true ->
  _convert k v = Raise e ->
  exists cls,
    e = ValueError (type_repr cls ++ lit " is not a valid _Type") /\
    Type_.call cls = Raise e.
Proof.
  revert k e.
  induction v as [| | | | |items IH|items IH|name attrs IH|cls] using pyobj_ind;
    intros k e Hn H; try (cbn in H; discriminate H).
  - rewrite convert_list in H. cbn [names_ok] in Hn. rewrite forallb_forall in Hn.
    destruct (Res.comprehension _ items) as [vs|e'] eqn:E; simpl in H; [discriminate|].
    injection H as ->. apply comprehension_raise in E. destruct E as (x & Hin & Hx).
    rewrite Forall_forall in IH. apply (IH x Hin k e (Hn x Hin)).
    destruct (_convert k x); simpl in Hx; [discriminate | congruence].
  - destruct (names_ok_dict k items Hn) as (Hname & Hres & Hsub).
    rewrite convert_dict in H. unfold _new_class in H.
    rewrite (new_class_nameable _ _ _ Hname) in H.
    destruct (_new_class_loop _convert items _) as [c|e'] eqn:E; simpl in H; [discriminate|].
    injection H as ->. apply (new_class_loop_raise items e Hres) in E.
    destruct E as (p & Hin & Hp).
    rewrite Forall_forall in IH, Hsub. exact (IH p Hin (fst p) e (Hsub p Hin) Hp).
  - exists T_type. cbn in H. injection H as <-. split; reflexivity.
  - exists (T_other cls). cbn in H. injection H as <-. split; reflexivity.
Qed.

Lemma convert_raises_only_enum_ValueError_witness :
  exists cls,
    ValueError (lit "<class 'tuple'> is not a valid _Type")
    = ValueError (type_repr cls ++ lit " is not a valid _Type") /\
    Type_.call cls = Raise (ValueError (lit "<class 'tuple'> is not a valid _Type")).
Proof.
  apply (convert_raises_only_enum_ValueError (lit "k")
           (VDict [(lit "a", VList [VInt 1; VOther (lit "tuple")])]));
    vm_compute; reflexivity.
Defined.

(** X4.  A value that [_convert] returns holds no dict any more, at any
    depth: every mapping has been replaced. *)
Theorem convert_output_has_no_dict (k : str) (v : pyobj) (kv : _KeyValue) :
  _convert k v = Ok kv -> no_dict (value kv) = true.
Proof.
  revert k kv.
  induction v as [| | | | |items IH|items IH|name attrs IH|cls] using pyobj_ind;
    intros k kv H; try (cbn in H; injection H as <-; reflexivity);
    try (cbn in H; discriminate H).
  - rewrite convert_list in H.
    destruct (Res.comprehension _ items) as [vs|e] eqn:E; simpl in H; [|discriminate].
    injection H as <-. apply comprehension_Ok_inv in E. simpl.
    induction E as [|x y items vs Hxy _ IHE]; [reflexivity|].
    inversion IH as [|? ? Hx Hrest]; subst. simpl.
    apply convert_item_Ok in Hxy. destruct Hxy as (kv & Hkv & <-).
    rewrite (Hx k kv Hkv). simpl. now apply IHE.
  - apply convert_dict_Ok_inv in H. destruct H as (c & -> & E).
    apply new_class_loop_Ok_inv in E.
    destruct E as (name' & attrs' & -> & _ & HP). cbn [value no_dict].
    apply forallb_forall. apply Forall_forall.
    apply (HP (fun o => no_dict o = true)); [constructor|].
    eapply Forall_impl; [|exact IH]. intros e He kv Hkv. eauto.
Qed.

Lemma convert_output_has_no_dict_witness :
  no_dict
    (VClass (lit "Root")
       [(lit "a", VInt 1); (lit "b", VClass (lit "B") [(lit "c", VInt 2)])])
  = true.
Proof.
  apply (convert_output_has_no_dict (lit "root")
           (VDict [(lit "a", VInt 1); (lit "b", VDict [(lit "c", VInt 2)])])
           (mk_KeyValue (lit "root")
              (VClass (lit "Root")
                 [(lit "a", VInt 1); (lit "b", VClass (lit "B") [(lit "c", VInt 2)])]))).
  reflexivity.
Defined.

(** X5.  A value made of null, primitives and lists only, nested to any
    depth, is returned equal to itself. *)
Theorem convert_mapping_free_identity (k : str) (v : pyobj) :
  mapping_free v = true -> _convert k v = Ok (mk_KeyValue k v).
Proof.
  induction v as [| | | | |items IH|items IH|name attrs IH|cls] using pyobj_ind;
    intros H; try discriminate; try reflexivity.
  simpl in H. rewrite forallb_forall in H. rewrite Forall_forall in IH.
  rewrite convert_list, (comprehension_same _ items); [reflexivity|].
  apply Forall_forall. intros x Hx. now rewrite (IH x Hx (H x Hx)).
Qed.

Lemma convert_mapping_free_identity_witness :
  _convert (lit "k") (VList [VList [VInt 1; VInt 2]; VList [VStr (lit "x")]; VNone])
  = Ok (mk_KeyValue (lit "k")
          (VList [VList [VInt 1; VInt 2]; VList [VStr (lit "x")]; VNone])).
Proof. apply convert_mapping_free_identity. reflexivity. Defined.

End ConverterExtras.

Section RecordExtras.
Import PyStrFacts ConverterFacts ConverterMore Eff.
Local Open Scope res_scope.

Lemma convert_counts (v : pyobj) :
  is_json v = true ->
  forall k o,
    names_ok k v = true ->
    _convert k v = Ok (mk_KeyValue k o) -> count_classes o = count_dicts v.
Proof.
  induction v as [| | | | |items IH|items IH|name attrs IH|cls] using pyobj_ind;
    intros Hjson k o Hn H; try discriminate;
    try (cbn in H; injection H as <-; reflexivity).
  - rewrite convert_list in H.
    destruct (Res.comprehension _ items) as [vs|e] eqn:E; simpl in H; [|discriminate].
    injection H as <-. apply comprehension_Ok_inv in E.
    cbn [is_json] in Hjson. cbn [names_ok] in Hn. cbn [count_classes count_dicts].
    induction E as [|x y items vs Hxy _ IHE]; [reflexivity|].
    inversion IH as [|? ? Hx Hrest]; subst. cbn [List.forallb] in Hjson, Hn.
    apply andb_true_iff in Hjson. destruct Hjson as [Hjx Hjrest].
    apply andb_true_iff in Hn. destruct Hn as [Hnx Hnrest]. cbn [List.map List.list_sum List.fold_right].
    apply convert_item_Ok in Hxy. destruct Hxy as ([k' o'] & Hkv & <-).
    pose proof (convert_key _ _ _ Hkv) as Hk'. cbn [key] in Hk'. subst k'.
    cbn [value]. rewrite (Hx Hjx k o' Hnx Hkv). f_equal. now apply IHE.
  - destruct (convert_mapping k items Hjson Hn) as (fields & Hconv & HF).
    rewrite Hconv in H. injection H as <-.
    destruct (names_ok_dict k items Hn) as (_ & _ & Hsub).
    cbn [is_json] in Hjson. apply andb_true_iff in Hjson. destruct Hjson as [_ Hall].
    cbn [count_classes count_dicts]. f_equal. clear Hconv Hn.
    induction HF as [|e f items fields [_ Hef] _ IHF]; [reflexivity|].
    inversion IH as [|? ? He Hrest]; subst. cbn [List.forallb] in Hall.
    apply andb_true_iff in Hall. destruct Hall as [Hje Hjrest].
    inversion Hsub as [|? ? Hne Hnrest]; subst. cbn [List.map List.list_sum List.fold_right].
    rewrite (He Hje (fst e) (snd f) Hne Hef). f_equal. now apply IHF.
Qed.

(** X6.  Converting a JSON document whose labels can name classes and whose
    keys are not reserved makes one class per mapping of the document, at
    every depth: the classes of the result are as many as the dicts of the
    input. *)
Theorem convert_one_class_per_mapping (k : str) (v : pyobj) :
  is_json v = true ->
  names_ok k v = true ->
  exists o, _convert k v = Ok (mk_KeyValue k o) /\ count_classes o = count_dicts v.
Proof.
  intros Hjson Hn. destruct (convert_total v Hjson k Hn) as [o Ho].
  exists o. split; [exact Ho|]. now apply (convert_counts v Hjson k).
Qed.

Lemma convert_one_class_per_mapping_witness :
  exists o,
    _convert (lit "root")
      (VDict [(lit "a", VList [VDict []; VDict [(lit "b", VDict [])]]); (lit "c", VInt 1)])
    = Ok (mk_KeyValue (lit "root") o) /\
    count_classes o = 4%nat.
Proof.
  apply (convert_one_class_per_mapping (lit "root")
           (VDict [(lit "a", VList [VDict []; VDict [(lit "b", VDict [])]]);
                   (lit "c", VInt 1)]));
    vm_compute; reflexivity.
Defined.







End RecordExtras.

(** ** The structure printer, line by line *)

Module PrinterMore.
Import PyStrFacts PrinterSpec PrinterFacts Eff.
Local Open Scope eff_scope.

Lemma mul_char (c : N) (n : Z) : mul [c] n = List.repeat c (Z.to_nat n).
Proof.
  unfold mul. induction (Z.to_nat n) as [|k IH]; simpl; [reflexivity|].
  now rewrite IH.
Qed.

Lemma ljust_pad (name : str) :
  ljust 12 name = name ++ List.repeat SPACE (12 - List.length name).
Proof.
  unfold ljust, len. do 2 f_equal. lia.
Qed.

Lemma prints_lines_eq (i : Z) (m : M unit) (out out' : list str) :
  prints_lines i m out -> out = out' -> prints_lines i m out'.
Proof. now intros H <-. Qed.

Lemma prints_lines_ret (i : Z) : prints_lines i (ret tt) [].
Proof. intros [s o] _. unfold ret. simpl. now rewrite app_nil_r. Qed.

Lemma prints_lines_print (i : Z) (line : str) : prints_lines i (print line) [line].
Proof. intros w _. reflexivity. Qed.

Lemma prints_lines_get_istep (i : Z) (k : Z -> M unit) (out : list str) :
  prints_lines i (k i) out -> prints_lines i (x <- get_istep ;; k x) out.
Proof.
  intros Hk w Hi. unfold Eff.bind, get_istep. rewrite Hi. now apply Hk.
Qed.

Lemma prints_lines_seq (i : Z) (m k : M unit) (o1 o2 : list str) :
  prints_lines i m o1 -> prints_lines i k o2 -> prints_lines i (m ;;; k) (o1 ++ o2).
Proof.
  intros Hm Hk w Hi. unfold Eff.bind. rewrite (Hm w Hi).
  rewrite (Hk (mk_world (self w) (stdout w ++ o1)) Hi). simpl.
  now rewrite app_assoc.
Qed.

Lemma prints_lines_for {A} (i : Z) (body : A -> M unit) (f : A -> list str)
    (l : list A) :
  Forall (fun x => prints_lines i (body x) (f x)) l ->
  prints_lines i (for_ body l) (List.flat_map f l).
Proof.
  induction 1 as [|x l Hx _ IH]; simpl; [apply prints_lines_ret|].
  now apply prints_lines_seq.
Qed.

Lemma prints_lines_for_enumerate {A} (i : Z) (body : Z -> A -> M unit)
    (f : Z -> A -> list str) (l : list A) :
  Forall (fun x => forall index, prints_lines i (body index x) (f index x)) l ->
  forall start, prints_lines i (for_enumerate body start l) (concat_enumerate f start l).
Proof.
  induction 1 as [|x l Hx _ IH]; intros start; simpl; [apply prints_lines_ret|].
  apply prints_lines_seq; [apply Hx | apply IH].
Qed.

Lemma prints_lines_header (i : Z) (name : str) (dtype : _Type) (indent : Z) :
  Type_.is_primitive dtype = false ->
  prints_lines i (header name dtype indent) [own_line i name dtype indent].
Proof.
  intros Hd. unfold header, own_line. rewrite Hd.
  destruct (PyStr.eqb name (lit "root")).
  - apply prints_lines_print.
  - apply prints_lines_get_istep, prints_lines_print.
Qed.

(** What the walk prints for a value of the seven kinds is its pre-order
    listing. *)
Lemma print_structure_listing (v : pyobj) :
  json_kinds v = true ->
  forall i name indent,
    prints_lines i (_print_structure name v indent) (structure_lines i name v indent).
Proof.
  induction v as [| | | | |items IH|items IH|cname attrs IH|cls] using pyobj_ind;
    intros Hk i name indent; try discriminate;
    try (apply prints_lines_print).
  - rewrite print_none.
    eapply prints_lines_eq.
    + apply prints_lines_seq; [now apply prints_lines_header|].
      apply prints_lines_seq; apply prints_lines_ret.
    + reflexivity.
  - rewrite print_list. simpl in Hk. rewrite forallb_forall in Hk.
    rewrite Forall_forall in IH.
    eapply prints_lines_eq.
    + apply prints_lines_seq; [now apply prints_lines_header|].
      apply prints_lines_seq; [apply prints_lines_ret|].
      apply (prints_lines_for_enumerate i _
               (fun index x => structure_lines i (lit "#" ++ of_int index) x (indent + i))).
      apply Forall_forall. intros x Hx index.
      apply prints_lines_get_istep, IH; auto.
    + reflexivity.
  - rewrite print_dict. simpl in Hk. rewrite forallb_forall in Hk.
    rewrite Forall_forall in IH.
    eapply prints_lines_eq.
    + apply prints_lines_seq; [now apply prints_lines_header|].
      apply prints_lines_seq; [|apply prints_lines_ret].
      apply (prints_lines_for i _
               (fun e => structure_lines i (fst e) (snd e) (indent + i))).
      apply Forall_forall. intros e He.
      apply prints_lines_get_istep, IH; auto.
    + simpl. now rewrite app_nil_r.
Qed.

Lemma structure_lines_length (v : pyobj) :
  json_kinds v = true ->
  forall i name indent, List.length (structure_lines i name v indent) = nodes v.
Proof.
  induction v as [| | | | |items IH|items IH|cname attrs IH|cls] using pyobj_ind;
    intros Hk i name indent; try discriminate; try reflexivity.
  - simpl in *. f_equal. generalize 0 as start.
    induction IH as [|x items Hx _ IHitems]; intros start; [reflexivity|].
    simpl in Hk. apply andb_true_iff in Hk. destruct Hk as [Hkx Hkrest].
    simpl. rewrite length_app, Hx by assumption. f_equal. now apply IHitems.
  - simpl in *. f_equal.
    induction IH as [|e items He _ IHitems]; [reflexivity|].
    simpl in Hk. apply andb_true_iff in Hk. destruct Hk as [Hke Hkrest].
    simpl. rewrite length_app, He by assumption. f_equal. now apply IHitems.
Qed.

(** The whole call, past the guard, on a document of the seven kinds. *)
Lemma print_structure_with_listing (i : Z) (w : world) :
  json_kinds (data (self w)) = true ->
  1 <= i ->
  print_structure_with i w
  = (Ok tt,
     mk_world (mk_JSONDecoder (path (self w)) (data (self w)) (Some i))
       (stdout w ++ structure_lines i (lit "root") (data (self w)) 0)).
Proof.
  intros Hk Hi. rewrite print_structure_with_walk by (apply Z.ltb_ge; lia).
  exact (print_structure_listing _ Hk i (lit "root") 0
           (mk_world (mk_JSONDecoder (path (self w)) (data (self w)) (Some i)) (stdout w))
           eq_refl).
Qed.

End PrinterMore.

Section PrinterExtras.
Import PyStrFacts PrinterSpec PrinterFacts PrinterMore Eff.

(** X10.  Printing the structure first changes nothing of what [run]
    returns afterwards, whatever the step asked for and whether the printing
    returned or raised. *)
Theorem run_after_print_structure (w : world) (indentstep : option Z) :
  fst (run (snd (print_structure indentstep w))) = fst (run w).
Proof.
  assert (Hrun : forall w1 w2, data (self w1) = data (self w2) ->
                               fst (run w1) = fst (run w2)).
  { intros w1 w2 E. unfold run, Eff.bind, get_data, lift, ret. rewrite E.
    now destruct (_convert (lit "root") (data (self w2))). }
  apply Hrun. unfold print_structure.
  destruct (match indentstep with Some i => i | None => 4 end <? 1) eqn:E.
  - unfold print_structure_with. now rewrite E.
  - rewrite print_structure_with_walk by exact E.
    now rewrite print_structure_keeps_self.
Qed.

(** X11.  For a step of at least 1, what [print_structure] appends to the
    output is the pre-order listing of the document: the line of a node,
    then the listings of its children in their order, one step deeper;
    what was printed before stays as it was. *)
Theorem print_structure_prints_listing (indentstep : Z) (w : world) :
  json_kinds (data (self w)) = true ->
  1 <= indentstep ->
  print_structure (Some indentstep) w
  = (Ok tt,
     mk_world (mk_JSONDecoder (path (self w)) (data (self w)) (Some indentstep))
       (stdout w ++ structure_lines indentstep (lit "root") (data (self w)) 0)).
Proof. intros Hk Hi. now apply print_structure_with_listing. Qed.

Lemma print_structure_prints_listing_witness :
  print_structure (Some 2) (loaded example_document)
  = (Ok tt,
     mk_world
       (mk_JSONDecoder (path (self (loaded example_document)))
          (data (self (loaded example_document))) (Some 2))
       (stdout (loaded example_document)
          ++ structure_lines 2 (lit "root") (data (self (loaded example_document))) 0)).
Proof.
  apply (print_structure_prints_listing 2 (loaded example_document));
    [reflexivity | lia].
Defined.

(** X12.  [print_structure] prints one line per node of the document: as
    many lines as the document has values, containers and leaves together. *)
Theorem print_structure_one_line_per_node (indentstep : Z) (w : world) :
  json_kinds (data (self w)) = true ->
  1 <= indentstep ->
  exists out,
    print_structure (Some indentstep) w
    = (Ok tt,
       mk_world (mk_JSONDecoder (path (self w)) (data (self w)) (Some indentstep))
         (stdout w ++ out)) /\
    List.length out = nodes (data (self w)).
Proof.
  intros Hk Hi. eexists. split.
  - now apply print_structure_with_listing.
  - now apply structure_lines_length.
Qed.

Lemma print_structure_one_line_per_node_witness :
  exists out,
    print_structure (Some 4) (loaded example_document)
    = (Ok tt,
       mk_world
         (mk_JSONDecoder (path (self (loaded example_document)))
            (data (self (loaded example_document))) (Some 4))
         (stdout (loaded example_document) ++ out)) /\
    List.length out = 6%nat.
Proof.
  apply (print_structure_one_line_per_node 4 (loaded example_document));
    [reflexivity | lia].
Defined.

(** X13.  Printing twice with the same step prints the same lines twice:
    the second call appends again what the first appended, and leaves the
    decoder as the first left it. *)
Theorem print_structure_twice (indentstep : Z) (w : world) :
  json_kinds (data (self w)) = true ->
  1 <= indentstep ->
  exists out,
    stdout (snd (print_structure (Some indentstep) w)) = stdout w ++ out /\
    print_structure (Some indentstep) (snd (print_structure (Some indentstep) w))
    = (Ok tt,
       mk_world (self (snd (print_structure (Some indentstep) w)))
         (stdout w ++ out ++ out)).
Proof.
  intros Hk Hi.
  exists (structure_lines indentstep (lit "root") (data (self w)) 0).
  unfold print_structure. rewrite (print_structure_with_listing _ w Hk Hi).
  cbn [snd stdout]. split; [reflexivity|].
  rewrite print_structure_with_listing by (cbn; assumption).
  cbn [self data path stdout]. now rewrite <- app_assoc.
Qed.

Lemma print_structure_twice_witness :
  exists out,
    stdout (snd (print_structure (Some 4) (loaded example_document)))
    = stdout (loaded example_document) ++ out /\
    print_structure (Some 4) (snd (print_structure (Some 4) (loaded example_document)))
    = (Ok tt,
       mk_world (self (snd (print_structure (Some 4) (loaded example_document))))
         (stdout (loaded example_document) ++ out ++ out)).
Proof.
  apply (print_structure_twice 4 (loaded example_document)); [reflexivity | lia].
Defined.

Lemma structure_lines_primitive (i : Z) (name : str) (x : pyobj) (indent : Z) :
  is_primitive_value x = true ->
  exists dtype,
    Type_.call (type_of x) = Ok dtype /\
    structure_lines i name x indent = [leaf_line name dtype indent].
Proof.
  destruct x; try discriminate; intros _; eexists; split; reflexivity.
Qed.

Lemma concat_enumerate_cons {A} (f : Z -> A -> list str) (start : Z) (x : A)
    (l : list A) :
  concat_enumerate f start (x :: l) = f start x ++ concat_enumerate f (start + 1) l.
Proof. reflexivity. Qed.

Lemma leaves_enumerate (i indent : Z) (items : list pyobj) :
  List.forallb is_primitive_value items = true ->
  forall start,
    let out :=
      concat_enumerate
        (fun index x => structure_lines i (lit "#" ++ of_int index) x indent)
        start items in
    List.length out = List.length items /\
    forall n x,
      nth_error items n = Some x ->
      exists dtype,
        Type_.call (type_of x) = Ok dtype /\
        nth_error out n
        = Some (leaf_line (lit "#" ++ of_int (start + Z.of_nat n)) dtype indent).
Proof.
  induction items as [|y items IH]; intros Hp start; cbv zeta.
  - split; [reflexivity|]. intros [|n] x; discriminate.
  - cbn [List.forallb] in Hp. apply andb_true_iff in Hp. destruct Hp as [Hy Hrest].
    destruct (structure_lines_primitive i (lit "#" ++ of_int start) y indent Hy)
      as (dtype & Hcall & Hline).
    rewrite concat_enumerate_cons, Hline.
    destruct (IH Hrest (start + 1)) as [Hlen Hnth].
    split; [cbn [List.app List.length]; now rewrite Hlen|].
    intros [|n] x Hx; cbn [nth_error List.app] in *.
    + injection Hx as <-. exists dtype. now rewrite Z.add_0_r.
    + destruct (Hnth n x Hx) as (d & Hd & Hn). exists d. split; [exact Hd|].
      replace (start + Z.of_nat (S n)) with (start + 1 + Z.of_nat n) by lia.
      exact Hn.
Qed.

Lemma leaves_flat_map (i indent : Z) (items : list (str * pyobj)) :
  List.forallb (fun e => is_primitive_value (snd e)) items = true ->
  let out :=
    List.flat_map (fun e => structure_lines i (fst e) (snd e) indent) items in
  List.length out = List.length items /\
  forall n key x,
    nth_error items n = Some (key, x) ->
    exists dtype,
      Type_.call (type_of x) = Ok dtype /\
      nth_error out n = Some (leaf_line key dtype indent).
Proof.
  induction items as [|[k y] items IH]; intros Hp; cbv zeta.
  - split; [reflexivity|]. intros [|n] key x; discriminate.
  - cbn [List.forallb snd] in Hp. apply andb_true_iff in Hp. destruct Hp as [Hy Hrest].
    destruct (structure_lines_primitive i k y indent Hy) as (dtype & Hcall & Hline).
    cbn [List.flat_map fst snd]. rewrite Hline. destruct (IH Hrest) as [Hlen Hnth].
    split; [cbn [List.app List.length]; now rewrite Hlen|].
    intros [|n] key x Hx; cbn [nth_error List.app] in *.
    + injection Hx as <- <-. exists dtype. auto.
    + exact (Hnth n key x Hx).
Qed.

Lemma primitives_json_kinds (items : list pyobj) :
  List.forallb is_primitive_value items = true ->
  List.forallb json_kinds items = true.
Proof.
  rewrite !forallb_forall. intros H x Hx. specialize (H x Hx).
  destruct x; try discriminate; reflexivity.
Qed.

(** X14.  For a list whose elements are primitives, the printer writes the
    line of the list and then one leaf line per element, in the order of
    the list, labelled [#0], [#1], ... from zero, one step deeper than the
    list. *)
Theorem print_list_of_primitives (name : str) (items : list pyobj)
    (indent i : Z) (w : world) :
  istep (self w) = Some i ->
  List.forallb is_primitive_value items = true ->
  exists first out,
    _print_structure name (VList items) indent w
    = (Ok tt, mk_world (self w) (stdout w ++ first :: out)) /\
    List.length out = List.length items /\
    forall n x,
      nth_error items n = Some x ->
      exists dtype,
        Type_.call (type_of x) = Ok dtype /\
        nth_error out n
        = Some (leaf_line (lit "#" ++ of_int (Z.of_nat n)) dtype (indent + i)).
Proof.
  intros Hi Hp.
  pose proof (print_structure_listing (VList items)
                (primitives_json_kinds items Hp) i name indent w Hi) as Hrun.
  destruct (leaves_enumerate i (indent + i) items Hp 0) as [Hlen Hnth].
  eexists _, _. split; [exact Hrun|]. split; [exact Hlen | exact Hnth].
Qed.

Lemma print_list_of_primitives_witness :
  exists first out,
    _print_structure (lit "tags") (VList [VStr (lit "x"); VStr (lit "y")]) 4
      (mk_world (mk_JSONDecoder (lit "document.json") example_document (Some 4)) [])
    = (Ok tt,
       mk_world (mk_JSONDecoder (lit "document.json") example_document (Some 4))
         ([] ++ first :: out)) /\
    List.length out = 2%nat /\
    forall n x,
      nth_error [VStr (lit "x"); VStr (lit "y")] n = Some x ->
      exists dtype,
        Type_.call (type_of x) = Ok dtype /\
        nth_error out n
        = Some (leaf_line (lit "#" ++ of_int (Z.of_nat n)) dtype (4 + 4)).
Proof.
  apply (print_list_of_primitives (lit "tags") [VStr (lit "x"); VStr (lit "y")] 4 4
           (mk_world (mk_JSONDecoder (lit "document.json") example_document (Some 4)) []));
    reflexivity.
Defined.

(** X15.  For a dict whose values are primitives, the printer writes the
    line of the dict and then one leaf line per entry, in insertion order,
    labelled by the key, one step deeper than the dict. *)
Theorem print_dict_of_primitives (name : str) (items : list (str * pyobj))
    (indent i : Z) (w : world) :
  istep (self w) = Some i ->
  List.forallb (fun e => is_primitive_value (snd e)) items = true ->
  exists first out,
    _print_structure name (VDict items) indent w
    = (Ok tt, mk_world (self w) (stdout w ++ first :: out)) /\
    List.length out = List.length items /\
    forall n key x,
      nth_error items n = Some (key, x) ->
      exists dtype,
        Type_.call (type_of x) = Ok dtype /\
        nth_error out n = Some (leaf_line key dtype (indent + i)).
Proof.
  intros Hi Hp.
  assert (Hk : json_kinds (VDict items) = true).
  { simpl. rewrite forallb_forall in *. intros e He. specialize (Hp e He).
    destruct (snd e); try discriminate; reflexivity. }
  pose proof (print_structure_listing (VDict items) Hk i name indent w Hi) as Hrun.
  destruct (leaves_flat_map i (indent + i) items Hp) as [Hlen Hnth].
  eexists _, _. split; [exact Hrun|]. split; [exact Hlen | exact Hnth].
Qed.

Lemma print_dict_of_primitives_witness :
  exists first out,
    _print_structure (lit "root") (VDict [(lit "name", VStr (lit "Alice")); (lit "age", VInt 30)]) 0
      (mk_world (mk_JSONDecoder (lit "document.json") example_document (Some 4)) [])
    = (Ok tt,
       mk_world (mk_JSONDecoder (lit "document.json") example_document (Some 4))
         ([] ++ first :: out)) /\
    List.length out = 2%nat /\
    forall n key x,
      nth_error [(lit "name", VStr (lit "Alice")); (lit "age", VInt 30)] n = Some (key, x) ->
      exists dtype,
        Type_.call (type_of x) = Ok dtype /\
        nth_error out n = Some (leaf_line key dtype (0 + 4)).
Proof.
  apply (print_dict_of_primitives (lit "root")
           [(lit "name", VStr (lit "Alice")); (lit "age", VInt 30)] 0 4
           (mk_world (mk_JSONDecoder (lit "document.json") example_document (Some 4)) []));
    reflexivity.
Defined.

End PrinterExtras.

Section LineExtras.
Import PyStrFacts PrinterSpec PrinterFacts PrinterMore Eff.

Lemma leaf_line_shape (name : str) (dtype : _Type) (indent : Z) :
  leaf_line name dtype indent
  = (List.repeat SPACE (Z.to_nat (indent - 1)) ++ [HBAR] ++ name
       ++ List.repeat SPACE (12 - List.length name))
      ++ lit "/" ++ lower (Type_.name dtype) ++ lit "/".
Proof.
  unfold leaf_line. cbv zeta. rewrite mul_char, ljust_pad, <- !app_assoc. reflexivity.
Qed.

(** X16.  On a leaf line below the root the tag starts in column
    [indent + 12] when the label has at most twelve characters, so the tags
    of short labels at one depth line up; a longer label is printed whole
    and pushes its tag to column [indent + len(label)]. *)
Theorem leaf_line_tag_column (name : str) (v : pyobj) (indent : Z) (w : world) :
  is_primitive_value v = true ->
  1 <= indent ->
  exists before tag,
    _print_structure name v indent w
    = (Ok tt, mk_world (self w) (stdout w ++ [before ++ lit "/" ++ tag ++ lit "/"])) /\
    before = List.repeat SPACE (Z.to_nat (indent - 1)) ++ [HBAR] ++ name
               ++ List.repeat SPACE (12 - List.length name) /\
    len before = indent + Z.max 12 (len name).
Proof.
  intros Hv Hi.
  assert (Hlen : len (List.repeat SPACE (Z.to_nat (indent - 1)) ++ [HBAR] ++ name
                        ++ List.repeat SPACE (12 - List.length name))
                 = indent + Z.max 12 (len name)).
  { unfold len. rewrite !length_app, !repeat_length. simpl List.length. lia. }
  destruct v; try discriminate Hv; eexists _, _; (split; [|split; [reflexivity | exact Hlen]]).
  - change (_print_structure name (VBool b) indent w)
      with (print (leaf_line name BOOL indent) w).
    now rewrite leaf_line_shape.
  - change (_print_structure name (VInt n) indent w)
      with (print (leaf_line name INT indent) w).
    now rewrite leaf_line_shape.
  - change (_print_structure name (VFloat f) indent w)
      with (print (leaf_line name FLOAT indent) w).
    now rewrite leaf_line_shape.
  - change (_print_structure name (VStr s) indent w)
      with (print (leaf_line name STRING indent) w).
    now rewrite leaf_line_shape.
Qed.

Lemma leaf_line_tag_column_witness :
  exists before tag,
    _print_structure (lit "a_rather_long_label") (VInt 7) 8 (loaded example_document)
    = (Ok tt,
       mk_world (self (loaded example_document))
         (stdout (loaded example_document) ++ [before ++ lit "/" ++ tag ++ lit "/"])) /\
    before = List.repeat SPACE (Z.to_nat (8 - 1)) ++ [HBAR] ++ lit "a_rather_long_label"
               ++ List.repeat SPACE (12 - List.length (lit "a_rather_long_label")) /\
    len before = 8 + Z.max 12 (len (lit "a_rather_long_label")).
Proof.
  apply (leaf_line_tag_column (lit "a_rather_long_label") (VInt 7) 8
           (loaded example_document)); [reflexivity | lia].
Defined.

(** X17.  A document that is a bare primitive is printed as one leaf line
    labelled [root] with nothing before the glyph, the same line for every
    step: at the root the count of spaces, [indent - 1], is below zero and
    gives none. *)
Theorem print_primitive_document (indentstep : Z) (w : world) :
  is_primitive_value (data (self w)) = true ->
  1 <= indentstep ->
  exists tag,
    match data (self w) with
    | VBool _ => tag = lit "bool"
    | VInt _ => tag = lit "int"
    | VFloat _ => tag = lit "float"
    | VStr _ => tag = lit "string"
    | _ => False
    end /\
    print_structure (Some indentstep) w
    = (Ok tt,
       mk_world (mk_JSONDecoder (path (self w)) (data (self w)) (Some indentstep))
         (stdout w ++ [[HBAR] ++ lit "root        /" ++ tag ++ lit "/"])).
Proof.
  intros Hv Hi. unfold print_structure.
  rewrite print_structure_with_walk by (apply Z.ltb_ge; lia).
  destruct (data (self w)); try discriminate Hv; eexists; (split; [reflexivity|]);
    reflexivity.
Qed.

Lemma print_primitive_document_witness :
  exists tag,
    tag = lit "int" /\
    print_structure (Some 3) (loaded (VInt 42))
    = (Ok tt,
       mk_world (mk_JSONDecoder (path (self (loaded (VInt 42))))
                   (data (self (loaded (VInt 42)))) (Some 3))
         (stdout (loaded (VInt 42)) ++ [[HBAR] ++ lit "root        /" ++ tag ++ lit "/"])).
Proof.
  apply (print_primitive_document 3 (loaded (VInt 42))); [reflexivity | lia].
Defined.

Lemma structure_lines_container (i : Z) (name : str) (v : pyobj) (indent : Z) :
  json_kinds v = true ->
  is_primitive_value v = false ->
  exists dtype rest,
    Type_.call (type_of v) = Ok dtype /\
    Type_.is_primitive dtype = false /\
    structure_lines i name v indent
    = (if PyStr.eqb name (lit "root") then lit "." else node_line i name dtype indent)
        :: rest.
Proof.
  intros Hk Hv. destruct v; try discriminate; eexists _, _;
    (split; [reflexivity|]); (split; [reflexivity|]); reflexivity.
Qed.

(** X18.  A node that is no primitive and is labelled [root] is printed as
    the single character [.] at whatever depth it sits: a null, list or
    dict under a key [root] inside the document loses its label and its
    type on the output, like the document itself. *)
Theorem label_root_prints_dot (v : pyobj) (indent i : Z) (w : world) :
  istep (self w) = Some i ->
  json_kinds v = true ->
  is_primitive_value v = false ->
  exists out,
    _print_structure (lit "root") v indent w
    = (Ok tt, mk_world (self w) (stdout w ++ lit "." :: out)).
Proof.
  intros Hi Hk Hv.
  destruct (structure_lines_container i (lit "root") v indent Hk Hv)
    as (dtype & rest & _ & _ & Hlines).
  exists rest. rewrite (print_structure_listing v Hk i (lit "root") indent w Hi).
  now rewrite Hlines.
Qed.

Lemma label_root_prints_dot_witness :
  exists out,
    _print_structure (lit "root") (VDict [(lit "a", VInt 1)]) 8
      (mk_world (mk_JSONDecoder (lit "document.json")
                   (VDict [(lit "x", VDict [(lit "root", VDict [(lit "a", VInt 1)])])])
                   (Some 4)) [lit "."; [CORNER; HBAR; HBAR; HBAR] ++ lit "x /dict/"])
    = (Ok tt,
       mk_world (mk_JSONDecoder (lit "document.json")
                   (VDict [(lit "x", VDict [(lit "root", VDict [(lit "a", VInt 1)])])])
                   (Some 4))
         ([lit "."; [CORNER; HBAR; HBAR; HBAR] ++ lit "x /dict/"] ++ lit "." :: out)).
Proof.
  apply (label_root_prints_dot (VDict [(lit "a", VInt 1)]) 8 4
           (mk_world (mk_JSONDecoder (lit "document.json")
                        (VDict [(lit "x", VDict [(lit "root", VDict [(lit "a", VInt 1)])])])
                        (Some 4)) [lit "."; [CORNER; HBAR; HBAR; HBAR] ++ lit "x /dict/"]));
    reflexivity.
Defined.

(** X19.  The line of a null, list or dict under any label but [root]:
    [indent - step] spaces, the corner [└], [step - 1] times [─], the label
    as it is, a space, and between slashes the name of the class,
    [NoneType], [list] or [dict]; the lines of its children follow. *)
Theorem print_container_line (name : str) (v : pyobj) (indent i : Z) (w : world) :
  istep (self w) = Some i ->
  json_kinds v = true ->
  is_primitive_value v = false ->
  name <> lit "root" ->
  exists tyname out,
    match v with
    | VNone => tyname = lit "NoneType"
    | VList _ => tyname = lit "list"
    | VDict _ => tyname = lit "dict"
    | _ => False
    end /\
    _print_structure name v indent w
    = (Ok tt,
       mk_world (self w)
         (stdout w ++
            (List.repeat SPACE (Z.to_nat (indent - i)) ++ [CORNER]
               ++ List.repeat HBAR (Z.to_nat (i - 1)) ++ name
               ++ lit " /" ++ tyname ++ lit "/") :: out)).
Proof.
  intros Hi Hk Hv Hname. apply eqb_neq in Hname.
  assert (Hline : forall dtype,
             node_line i name dtype indent
             = List.repeat SPACE (Z.to_nat (indent - i)) ++ [CORNER]
                 ++ List.repeat HBAR (Z.to_nat (i - 1)) ++ name
                 ++ lit " /" ++ type_name (Type_.value dtype) ++ lit "/").
  { intros dtype. unfold node_line. cbv zeta.
    rewrite !mul_char, <- !app_assoc. reflexivity. }
  rewrite (print_structure_listing v Hk i name indent w Hi).
  destruct v; try discriminate; eexists _, _; (split; [reflexivity|]);
    cbn [structure_lines]; unfold own_line; cbn [Type_.is_primitive List.existsb Type_.eqb orb];
    rewrite Hname, Hline; reflexivity.
Qed.

Lemma print_container_line_witness :
  exists tyname out,
    tyname = lit "list" /\
    _print_structure (lit "tags") (VList [VStr (lit "x"); VStr (lit "y")]) 4
      (mk_world (mk_JSONDecoder (lit "document.json") example_document (Some 4)) [])
    = (Ok tt,
       mk_world (mk_JSONDecoder (lit "document.json") example_document (Some 4))
         ([] ++
            (List.repeat SPACE (Z.to_nat (4 - 4)) ++ [CORNER]
               ++ List.repeat HBAR (Z.to_nat (4 - 1)) ++ lit "tags"
               ++ lit " /" ++ tyname ++ lit "/") :: out)).
Proof.
  apply (print_container_line (lit "tags") (VList [VStr (lit "x"); VStr (lit "y")]) 4 4
           (mk_world (mk_JSONDecoder (lit "document.json") example_document (Some 4)) []));
    try reflexivity.
  discriminate.
Defined.

End LineExtras.
